(** * Solar panel fault detection: the Streamlit page of [app.py]

    [app.py] is a Streamlit script: every user interaction re-runs it from
    the top with the current widget values and the session's
    [st.session_state].  One run is modelled as a function [app] from the
    widget values ([Inputs]) and the session state to the elements the run
    puts on the page ([Page]) and the session state it leaves behind.

    The helpers the script imports ([predict], [get_fault_info],
    [find_nearest_office], [format_contact_info]) live in modules that are
    not part of the sources at hand.  The page is modelled over them as
    section variables; the modules [Predict], [FaultInfoKB] and
    [OfficeLocator] give models of three of them after their written
    contracts.

    A Python [str] is modelled by the [string] of its UTF-8 bytes, so the
    literals of the script are the literals here.  A Python [float] is the
    kernel's binary64 [PrimFloat.float].  The helpers and the Streamlit
    calls are taken to return: a run that raises is not a run of [app]. *)

From Stdlib Require Import ZArith List String Ascii Floats Decimal DecimalString
  DecimalPos DecimalN DecimalFacts Lia Sorted.
From stdpp Require Import gmap strings list.

Local Open Scope string_scope.
Local Open Scope Z_scope.

(* [++] is kept for lists; texts are appended with [+:+]. *)
#[local] Disable Notation "x ++ y" : string_scope.

(** ** Python built-ins used by the script *)

Module Py.

(** [bool(s)] for a [str]: the empty string is the only falsy one. *)
Definition truthy (s : string) : bool :=
  match s with
  | EmptyString => false
  | String _ _ => true
  end.

(** A byte [10xxxxxx] continues a UTF-8 sequence; every other byte starts a
    character. *)
Definition starts_char (a : ascii) : bool :=
  negb (N.land (N_of_ascii a) 192 =? 128)%N.

(** [len(s)]: the number of characters of [s]. *)
Fixpoint len (s : string) : Z :=
  match s with
  | EmptyString => 0
  | String a rest => (if starts_char a then 1 else 0) + len rest
  end.

(** The newline character of the script's triple-quoted literals. *)
Definition NL : string := String "010"%char EmptyString.

(** [sep.join(parts)]. *)
Fixpoint join (sep : string) (parts : list string) : string :=
  match parts with
  | [] => ""
  | [p] => p
  | p :: rest => p +:+ sep +:+ join sep rest
  end.

(** The text of a triple-quoted literal whose every line, the last one
    included, ends with a newline. *)
Fixpoint unlines (ls : list string) : string :=
  match ls with
  | [] => ""
  | l :: rest => l +:+ NL +:+ unlines rest
  end.

(** [str(n)] for a non-negative integer. *)
Definition decimal (n : Z) : string :=
  NilZero.string_of_uint (N.to_uint (Z.to_N n)).

(** Division of [n] by [d > 0] rounded to the nearest integer, ties to the
    even one: the rounding of CPython's float formatting, which works on
    the exact binary value. *)
Definition round_half_even (n d : Z) : Z :=
  let q := n / d in
  let r := n mod d in
  match Z.compare (2 * r) d with
  | Lt => q
  | Gt => q + 1
  | Eq => if Z.even q then q else q + 1
  end.

(** The magnitude [m * 2^e] in tenths, correctly rounded. *)
Definition tenths (m : positive) (e : Z) : Z :=
  if 0 <=? e then 10 * Z.pos m * 2 ^ e
  else round_half_even (10 * Z.pos m) (2 ^ (- e)).

(** A number of tenths printed with one digit after the point. *)
Definition fixed1 (t : Z) : string :=
  decimal (t / 10) +:+ "." +:+ decimal (t mod 10).

(** [format(x, ".1f")]. *)
Definition format_1f (x : float) : string :=
  match Prim2SF x with
  | S754_nan => "nan"
  | S754_infinity s => if s then "-inf" else "inf"
  | S754_zero s => (if s then "-" else "") +:+ "0.0"
  | S754_finite s m e => (if s then "-" else "") +:+ fixed1 (tenths m e)
  end.

(** The replacement field [{x*100:.1f}%] of the script's f-strings. *)
Definition percent_1f (x : float) : string :=
  format_1f (x * 100)%float +:+ "%".

(** A decimal digit. *)
Definition is_digit (a : ascii) : bool :=
  ((48 <=? N_of_ascii a) && (N_of_ascii a <=? 57))%N.

Fixpoint all_digits (s : string) : bool :=
  match s with
  | EmptyString => true
  | String a rest => is_digit a && all_digits rest
  end.

(** A percentage with one decimal place: an optional minus sign, at least
    one digit, the point, one digit and the percent sign. *)
Definition one_decimal_percent (s : string) : Prop :=
  exists (sign whole : string) (tenth : ascii),
    s = sign +:+ whole +:+ "." +:+ String tenth "%" /\
    (sign = "" \/ sign = "-") /\
    whole <> "" /\ all_digits whole = true /\ is_digit tenth = true.

(** The number a decimal numeral stands for; no number for the empty
    text, for a text with a character that is not a digit, or for digits
    with a needless zero in front. *)
Definition read_decimal (s : string) : option Z :=
  match NilZero.uint_of_string s with
  | Some d =>
      if Decimal.uint_beq (Decimal.unorm d) d
      then Some (Z.of_N (N.of_uint d)) else None
  | None => None
  end.

(** [t] is the magnitude [m * 2^e], taken exactly and times ten, rounded
    to the nearest integer, a tie going to the even one.  With the
    magnitude times ten written [num / den], twice the distance from
    [num] to [t * den] is at most [den], and [t] is even when it is
    [den]. *)
Definition rounds_to_tenths (m : positive) (e : Z) (t : Z) : Prop :=
  let num := 10 * Z.pos m * 2 ^ Z.max e 0 in
  let den := 2 ^ Z.max (- e) 0 in
  2 * Z.abs (num - t * den) <= den /\
  (2 * Z.abs (num - t * den) = den -> Z.even t = true).

(** [s] writes the finite number [x] with one decimal place: a minus
    sign when the sign bit of [x] is set, the digits of [t / 10], the
    point and the digit [t mod 10], where [t] is the magnitude of [x] in
    tenths, correctly rounded. *)
Definition written_to_one_decimal (x : float) (s : string) : Prop :=
  exists (negative : bool) (whole : string) (tenth : ascii) (t : Z),
    s = (if negative then "-" else "") +:+ whole +:+ "." +:+ String tenth "" /\
    0 <= t /\
    read_decimal whole = Some (t / 10) /\
    read_decimal (String tenth "") = Some (t mod 10) /\
    match Prim2SF x with
    | S754_zero sign => negative = sign /\ t = 0
    | S754_finite sign m e => negative = sign /\ rounds_to_tenths m e t
    | S754_infinity _ | S754_nan => False
    end.

(** [p] is the confidence as a percentage with one decimal place: the
    product [confidence * 100] of the script, written to one decimal
    place and followed by the percent sign. *)
Definition percent_to_one_decimal (confidence : float) (p : string) : Prop :=
  exists s, p = s +:+ "%" /\ written_to_one_decimal (confidence * 100)%float s.

(** [x] is neither an infinity nor a NaN. *)
Definition is_finite (x : float) : bool :=
  match Prim2SF x with
  | S754_zero _ | S754_finite _ _ _ => true
  | S754_infinity _ | S754_nan => false
  end.

(** [datetime.now()], read to the second. *)
Record datetime : Type := {
  year : Z; month : Z; day : Z; hour : Z; minute : Z; second : Z
}.

(** [n] in decimal, padded with zeros on the left to [width] digits. *)
Definition zero_padded (width : nat) (n : Z) : string :=
  let d := decimal n in
  String.concat "" (repeat "0" (width - String.length d)) +:+ d.

(** [d.strftime("%Y-%m-%d %H:%M:%S")]. *)
Definition strftime_report (d : datetime) : string :=
  zero_padded 4 (year d) +:+ "-" +:+ zero_padded 2 (month d) +:+ "-" +:+
  zero_padded 2 (day d) +:+ " " +:+ zero_padded 2 (hour d) +:+ ":" +:+
  zero_padded 2 (minute d) +:+ ":" +:+ zero_padded 2 (second d).

(** [d.strftime("%Y%m%d_%H%M%S")]. *)
Definition strftime_file (d : datetime) : string :=
  zero_padded 4 (year d) +:+ zero_padded 2 (month d) +:+
  zero_padded 2 (day d) +:+ "_" +:+ zero_padded 2 (hour d) +:+
  zero_padded 2 (minute d) +:+ zero_padded 2 (second d).

(** [s.replace(c, '')] for a one-character [c]. *)
Fixpoint remove_char (c : ascii) (s : string) : string :=
  match s with
  | EmptyString => EmptyString
  | String a rest =>
      if Ascii.eqb a c then remove_char c rest
      else String a (remove_char c rest)
  end.

(** One hexadecimal digit, upper case. *)
Definition hex_digit (n : N) : ascii :=
  if (n <? 10)%N then ascii_of_N (48 + n) else ascii_of_N (55 + n).

(** The characters [urllib.parse.quote] leaves alone with its default
    [safe='/']: ASCII letters, digits and [_.-~/]. *)
Definition unreserved (a : ascii) : bool :=
  let n := N_of_ascii a in
  ((65 <=? n) && (n <=? 90) || (97 <=? n) && (n <=? 122) ||
   (48 <=? n) && (n <=? 57) ||
   (n =? 95) || (n =? 46) || (n =? 45) || (n =? 126) || (n =? 47))%N.

(** [urllib.parse.quote(s)] on the bytes of [s]. *)
Fixpoint quote (s : string) : string :=
  match s with
  | EmptyString => EmptyString
  | String a rest =>
      if unreserved a then String a (quote rest)
      else
        let n := N_of_ascii a in
        String "%"%char
          (String (hex_digit (n / 16)) (String (hex_digit (n mod 16)) (quote rest)))
  end.

(** [x in text] for strings: [x] occurs in [text] as a contiguous piece. *)
Definition contains (text x : string) : Prop :=
  exists before after : string, text = before +:+ x +:+ after.

End Py.

(** ** Data model *)

(** A decoded RGB raster, [Image.open(f).convert("RGB")]: rows of pixels. *)
Definition Image : Type := list (list (Z * Z * Z)).

(** The dict [predict] returns; the script reads the keys ["fault_type"],
    ["confidence"] and ["probabilities"], the last a dict from class name
    to probability, kept here in its iteration order. *)
Record FaultPrediction : Type := {
  fault_type : string;
  confidence : float;
  probabilities : list (string * float)
}.

(** The dict [get_fault_info] returns.  The script reads every key with
    [.get] or after an [in] test, so each key may be missing. *)
Module FaultInfo.
Record t : Type := {
  description : option string;
  severity : option string;
  symptoms : option (list string);
  repair_steps : option (list string);
  prevention : option (list string);
  cost_estimate : option string
}.
End FaultInfo.

(** The dict [find_nearest_office] returns for a served pincode. *)
Module ServiceOffice.
Record t : Type := {
  office_name : string;
  email : string;
  phone : string;
  address : string;
  working_hours : string
}.
End ServiceOffice.

(** The [report] dict of the script, key by key. *)
Module UserDetails.
Record t : Type := {
  name : string; phone : string; email : string;
  pincode : string; panel_location : string
}.
End UserDetails.

Module FaultDetection.
Record t : Type := {
  fault_type : string; confidence : string;
  severity : string; description : string
}.
End FaultDetection.

Module OfficeDetails.
Record t : Type := {
  office_name : string; email : string; phone : string; address : string
}.
End OfficeDetails.

Module Report.
Record t : Type := {
  timestamp : string;
  user_details : UserDetails.t;
  fault_detection : FaultDetection.t;
  office_details : OfficeDetails.t;
  additional_notes : string
}.
End Report.

(** What the script keeps in [st.session_state]: the report dict under
    ['fault_report'] and its text under ['report_text']. *)
Inductive SessionValue : Type :=
| SReport (r : Report.t)
| SText (s : string).

(** ** The page *)

#[local] Set Warnings "-register-all".

(** The Streamlit calls of the script, one constructor per [st.] function
    with the arguments the script passes; the blocks [st.expander] and
    [st.form] hold the elements created inside them. *)
Inductive Element : Type :=
| st_set_page_config (page_title page_icon layout : string)
| st_title (body : string)
| st_header (body : string)
| st_markdown (body : string)
| st_markdown_html (body : string)
| st_write (body : string)
| st_image (img : Image) (caption : string)
| st_spinner (text : string)
| st_success (body : string)
| st_error (body : string)
| st_warning (body : string)
| st_info (body : string)
| st_progress (value : float) (text : string)
| st_expander (label : string) (children : list Element)
| st_file_uploader (label : string)
| st_text_input (label placeholder : string)
| st_text_area (label placeholder : string)
| st_button (label : string)
| st_form (key : string) (children : list Element)
| st_form_submit_button (label : string)
| st_json (r : Report.t)
| st_code (body : string)
| st_download_button (label : string) (data : SessionValue) (file_name mime : string).

(** The four places the script writes to. *)
Record Page : Type := {
  top : list Element;
  sidebar : list Element;
  col1 : list Element;
  col2 : list Element
}.

(** The widget values of one run.  [uploaded_image] is the decoded upload,
    [submitted] what [st.form_submit_button] returns; the two clock readings
    are the [datetime.now()] of the sidebar and of the report. *)
Record Inputs : Type := {
  uploaded_image : option Image;
  user_pincode : string;
  find_office_btn : bool;
  user_name : string;
  user_phone : string;
  user_email : string;
  panel_location : string;
  additional_notes : string;
  submitted : bool;
  now_sidebar : Py.datetime;
  now_report : Py.datetime
}.

(** [st.session_state], a dict with string keys. *)
Abbreviation Session := (gmap string SessionValue).

(** ** The script *)

(** [d.get(key) == v] on an optional text entry of a dict. *)
Definition get_eq (o : option string) (v : string) : bool :=
  match o with
  | Some s => String.eqb s v
  | None => false
  end.

(** [sorted(items, key=lambda x: x[1], reverse=True)] on probabilities
    none of which is a NaN: a stable sort by decreasing probability, an
    item staying ahead of the later items it is not smaller than.  (On a
    NaN every comparison fails and the order Python leaves depends on
    the steps of its sort; [st.progress] refuses such a value, so a run
    with one ends at line 137 and is not a run of the page.) *)
Fixpoint insert_desc (x : string * float) (l : list (string * float))
  : list (string * float) :=
  match l with
  | [] => [x]
  | y :: rest =>
      if (snd x <? snd y)%float then y :: insert_desc x rest else x :: l
  end.

Definition sorted_probs (items : list (string * float)) : list (string * float) :=
  foldr insert_desc [] items.

(** [enumerate(steps, i)] rendered as the numbered list of the script. *)
Fixpoint numbered (i : Z) (steps : list string) : list Element :=
  match steps with
  | [] => []
  | step :: rest =>
      st_markdown (Py.decimal i +:+ ". " +:+ step) :: numbered (i + 1) rest
  end.

Definition bulleted (items : list string) : list Element :=
  map (fun item => st_markdown ("- " +:+ item)) items.

(** Lines 10-17: page configuration, title and introduction. *)
Definition page_top : list Element :=
  [ st_set_page_config "Solar Fault Detection" "🔆" "wide";
    st_title "🔆 Solar Panel Fault Detection System";
    st_markdown "Upload an EL (Electroluminescence) image of a solar panel to detect faults and get repair instructions." ].

(** Lines 26-57: the sidebar.  The download button is created only when
    the session holds ['fault_report'], and carries whatever the session
    holds under ['report_text'] (the empty text by default). *)
Definition page_sidebar (session : Session) (now : Py.datetime) : list Element :=
  [ st_header "ℹ️ About";
    st_markdown (Py.join Py.NL
      [ "";
        "    This system detects common solar panel faults:";
        "    - Microcracks";
        "    - Hot Spots";
        "    - Snail Trails";
        "    - Cell Breakage";
        "    - Delamination";
        "    - Bypass Diode Failure";
        "    - PID (Potential Induced Degradation)";
        "    " ]);
    st_markdown "---";
    st_header "📍 Service Office Locator";
    st_markdown (Py.join Py.NL
      [ "";
        "    Enter your pincode to:";
        "    - Find nearest service office";
        "    - Get contact information";
        "    - Send fault report directly";
        "    " ]);
    st_markdown "---";
    st_markdown "**Note:** This is a demonstration system. For production use, train with your specific dataset." ]
  ++
  match session !! "fault_report" with
  | Some _ =>
      [ st_markdown "---";
        st_download_button "📥 Download Fault Report"
          (default (SText "") (session !! "report_text"))
          ("fault_report_" +:+ Py.strftime_file now +:+ ".txt")
          "text/plain" ]
  | None => []
  end.

(** Lines 62-71: the uploader and, once a file is there, the picture. *)
Definition page_col1 (uploaded : option Image) : list Element :=
  st_file_uploader "Upload Solar Panel EL Image" ::
  match uploaded with
  | Some image => [ st_image image "Uploaded EL Image" ]
  | None => []
  end.

(** Lines 85-93: the headline of the result.  Its text carries the label
    and the confidence; its kind is chosen from the label and the
    severity of the knowledge base. *)
Definition detection_result (fault_type : string) (confidence : float)
    (fault_info : FaultInfo.t) : Element :=
  let text := "**" +:+ fault_type +:+ "** (Confidence: " +:+
              Py.percent_1f confidence +:+ ")" in
  if String.eqb fault_type "Healthy Panel" then st_success text
  else if get_eq (FaultInfo.severity fault_info) "High" then st_error text
  else if get_eq (FaultInfo.severity fault_info) "Medium" then st_warning text
  else st_info text.

(** Lines 95-126: description, severity, symptoms, repair steps,
    prevention tips and cost estimate. *)
Definition fault_details (fault_type : string) (fault_info : FaultInfo.t)
  : list Element :=
  [ st_markdown "---";
    st_markdown "### 📋 Fault Description";
    st_write (default "No description available." (FaultInfo.description fault_info)) ]
  ++ (if negb (String.eqb fault_type "Healthy Panel")
      then [ st_markdown ("**Severity:** " +:+
                          default "Unknown" (FaultInfo.severity fault_info)) ]
      else [])
  ++ match FaultInfo.symptoms fault_info with
     | Some symptoms => st_markdown "### 🔍 Symptoms" :: bulleted symptoms
     | None => []
     end
  ++ [ st_markdown "---";
       st_markdown "### 🔧 Repair Instructions";
       st_markdown "**Step-by-step repair process:**" ]
  ++ numbered 1 (default [] (FaultInfo.repair_steps fault_info))
  ++ [ st_markdown "---";
       st_markdown "### 🛡️ Prevention Tips" ]
  ++ bulleted (default [] (FaultInfo.prevention fault_info))
  ++ match FaultInfo.cost_estimate fault_info with
     | Some cost =>
         [ st_markdown "---";
           st_markdown ("### 💰 Estimated Repair Cost: **" +:+ cost +:+ "**") ]
     | None => []
     end.

(** Lines 129-137: every class with its probability, largest first. *)
Definition all_predictions (result : FaultPrediction) : Element :=
  st_expander "📊 View All Predictions"
    (st_markdown "**Prediction probabilities:**" ::
     map (fun item : string * float =>
            st_progress (snd item) (fst item +:+ ": " +:+ Py.percent_1f (snd item)))
         (sorted_probs (probabilities result))).

(** Lines 194-216: the report dict. *)
Definition make_report (timestamp : string) (inp : Inputs) (fault_type : string)
    (confidence : float) (fault_info : FaultInfo.t) (office : ServiceOffice.t)
  : Report.t :=
  {| Report.timestamp := timestamp;
     Report.user_details :=
       {| UserDetails.name := user_name inp;
          UserDetails.phone := user_phone inp;
          UserDetails.email := user_email inp;
          UserDetails.pincode := user_pincode inp;
          UserDetails.panel_location := panel_location inp |};
     Report.fault_detection :=
       {| FaultDetection.fault_type := fault_type;
          FaultDetection.confidence := Py.percent_1f confidence;
          FaultDetection.severity := default "Unknown" (FaultInfo.severity fault_info);
          FaultDetection.description := default "" (FaultInfo.description fault_info) |};
     Report.office_details :=
       {| OfficeDetails.office_name := ServiceOffice.office_name office;
          OfficeDetails.email := ServiceOffice.email office;
          OfficeDetails.phone := ServiceOffice.phone office;
          OfficeDetails.address := ServiceOffice.address office |};
     Report.additional_notes := additional_notes inp |}.

(** Lines 226-249: the plain-text rendering, line by line. *)
Definition report_lines (report : Report.t) (inp : Inputs) (fault_type : string)
    (confidence : float) (fault_info : FaultInfo.t) (office : ServiceOffice.t)
  : list string :=
  [ "FAULT DETECTION REPORT";
    "======================";
    "";
    "Date: " +:+ Report.timestamp report;
    "User: " +:+ user_name inp;
    "Phone: " +:+ user_phone inp;
    "Email: " +:+ user_email inp;
    "Pincode: " +:+ user_pincode inp;
    "Location: " +:+ panel_location inp;
    "";
    "FAULT DETECTED:";
    "- Type: " +:+ fault_type;
    "- Confidence: " +:+ Py.percent_1f confidence;
    "- Severity: " +:+ default "Unknown" (FaultInfo.severity fault_info);
    "- Description: " +:+ default "" (FaultInfo.description fault_info);
    "";
    "SERVICE OFFICE:";
    "- Name: " +:+ ServiceOffice.office_name office;
    "- Address: " +:+ ServiceOffice.address office;
    "- Phone: " +:+ ServiceOffice.phone office;
    "- Email: " +:+ ServiceOffice.email office;
    "";
    "Additional Notes: " +:+ additional_notes inp ].

Definition make_report_text (report : Report.t) (inp : Inputs) (fault_type : string)
    (confidence : float) (fault_info : FaultInfo.t) (office : ServiceOffice.t)
  : string :=
  Py.unlines (report_lines report inp fault_type confidence fault_info office).

(** Lines 257-279: the [mailto:] link with its quoted subject and body. *)
Definition email_link (inp : Inputs) (fault_type : string) (confidence : float)
    (fault_info : FaultInfo.t) (office : ServiceOffice.t) : string :=
  let email_subject := Py.quote ("Fault Report - " +:+ fault_type) in
  let email_body := Py.quote (Py.join Py.NL
    [ "Dear " +:+ ServiceOffice.office_name office +:+ ",";
      "";
      "I am reporting a solar panel fault detected through the fault detection system.";
      "";
      "FAULT DETAILS:";
      "- Type: " +:+ fault_type;
      "- Confidence: " +:+ Py.percent_1f confidence;
      "- Severity: " +:+ default "Unknown" (FaultInfo.severity fault_info);
      "";
      "MY DETAILS:";
      "- Name: " +:+ user_name inp;
      "- Phone: " +:+ user_phone inp;
      "- Email: " +:+ user_email inp;
      "- Pincode: " +:+ user_pincode inp;
      "- Panel Location: " +:+ panel_location inp;
      "";
      "Additional Notes: " +:+ additional_notes inp;
      "";
      "Please contact me to schedule a service visit.";
      "";
      "Thank you." ]) in
  "mailto:" +:+ ServiceOffice.email office +:+ "?subject=" +:+ email_subject +:+
  "&body=" +:+ email_body.

(** Lines 252-290: the three ways to reach the office. *)
Definition contact_office (inp : Inputs) (fault_type : string) (confidence : float)
    (fault_info : FaultInfo.t) (office : ServiceOffice.t) : list Element :=
  let phone_clean :=
    Py.remove_char " " (Py.remove_char "+" (Py.remove_char "-"
      (ServiceOffice.phone office))) in
  [ st_markdown "### 📞 Contact Office";
    st_markdown "**📧 Email Office**";
    st_markdown ("[📧 " +:+ ServiceOffice.email office +:+ "](" +:+
                 email_link inp fault_type confidence fault_info office +:+ ")");
    st_markdown "**📞 Call Office**";
    st_markdown ("[📞 " +:+ ServiceOffice.phone office +:+ "](tel:" +:+
                 phone_clean +:+ ")");
    st_markdown "**📋 Office Address**";
    st_markdown (ServiceOffice.address office);
    st_markdown ("**Working Hours:** " +:+ ServiceOffice.working_hours office) ].

(** Lines 191-301: what the form does once its widgets are laid out.  A
    submission with the three required fields filled builds the report,
    shows it and stores both renderings in the session; a submission with
    one of them empty only shows the validation error. *)
Definition on_submit (inp : Inputs) (session : Session) (fault_type : string)
    (confidence : float) (fault_info : FaultInfo.t) (office : ServiceOffice.t)
  : list Element * Session :=
  if submitted inp then
    if Py.truthy (user_name inp) && Py.truthy (user_phone inp) &&
       Py.truthy (user_email inp)
    then
      let report :=
        make_report (Py.strftime_report (now_report inp)) inp fault_type
                    confidence fault_info office in
      let report_text :=
        make_report_text report inp fault_type confidence fault_info office in
      ( [ st_success "✅ Report Generated Successfully!";
          st_expander "📄 View Generated Report" [ st_json report ] ]
        ++ contact_office inp fault_type confidence fault_info office
        ++ [ st_markdown "---";
             st_markdown "### 📄 Report Summary";
             st_code report_text ],
        <["report_text" := SText report_text]>
          (<["fault_report" := SReport report]> session) )
    else
      ( [ st_error "Please fill in all required fields (marked with *)" ],
        session )
  else ([], session).

(** Lines 173-189: the widgets of the form. *)
Definition form_widgets : list Element :=
  [ st_markdown "**Fill in your details to send the fault report:**";
    st_text_input "Your Name *" "John Doe";
    st_text_input "Phone Number *" "+91-XXXXXXXXXX";
    st_text_input "Email Address *" "your.email@example.com";
    st_text_input "Panel Location" "Address where panel is installed";
    st_text_area "Additional Notes (Optional)"
                 "Any additional information about the fault...";
    st_form_submit_button "📤 Send Report to Office" ].

(** Lines 172-301: the form block. *)
Definition fault_report_form (inp : Inputs) (session : Session) (fault_type : string)
    (confidence : float) (fault_info : FaultInfo.t) (office : ServiceOffice.t)
  : Element * Session :=
  let '(shown, session') :=
    on_submit inp session fault_type confidence fault_info office in
  (st_form "fault_report_form" (form_widgets ++ shown), session').

(** The run a click on the submit button of the form causes.  Streamlit
    runs the script again with the texts typed into the form and with
    [st.form_submit_button] returning [True]; the widgets outside the
    form keep their values, but [st.button] returns [True] only in the
    run its own click causes, so the Find Office button of the page
    [shown] reads [False] in this one. *)
Definition submission (shown : Inputs) (name phone email location notes : string)
    (clock : Py.datetime) : Inputs :=
  {| uploaded_image := uploaded_image shown;
     user_pincode := user_pincode shown;
     find_office_btn := false;
     user_name := name;
     user_phone := phone;
     user_email := email;
     panel_location := location;
     additional_notes := notes;
     submitted := true;
     now_sidebar := clock;
     now_report := clock |}.

(** The condition of line 155: the button was pressed, or at least four
    characters were typed. *)
Definition lookup_wanted (inp : Inputs) : bool :=
  find_office_btn inp ||
  (Py.truthy (user_pincode inp) && (4 <=? Py.len (user_pincode inp))).

(** ** Reading a page *)

(** An element with everything created inside it. *)
Fixpoint nested (e : Element) : list Element :=
  e :: match e with
       | st_expander _ children | st_form _ children =>
           (fix all (es : list Element) : list Element :=
              match es with
              | [] => []
              | e0 :: rest => nested e0 ++ all rest
              end) children
       | _ => []
       end.

(** Every element of a container, at any depth. *)
Definition all_elements (es : list Element) : list Element :=
  flat_map nested es.

(** The four kinds of Streamlit status box, which differ by colour:
    [st.success] green, [st.error] red, [st.warning] yellow, [st.info]
    blue. *)
Inductive StatusKind : Type := Success | Error | Warning | Info.

(** The kind of a status box and its text. *)
Definition status_of (e : Element) : option (StatusKind * string) :=
  match e with
  | st_success body => Some (Success, body)
  | st_error body => Some (Error, body)
  | st_warning body => Some (Warning, body)
  | st_info body => Some (Info, body)
  | _ => None
  end.

(** The kind of box by label and knowledge-base severity alone: green for
    the healthy label, otherwise red for a high severity, yellow for a
    medium one and blue for anything else. *)
Definition kind_by_severity (fault_type : string) (severity : option string)
  : StatusKind :=
  if String.eqb fault_type "Healthy Panel" then Success
  else match severity with
       | Some "High" => Error
       | Some "Medium" => Warning
       | _ => Info
       end.

(** Every element of a page. *)
Definition page_elements (page : Page) : list Element :=
  all_elements (top page ++ sidebar page ++ col1 page ++ col2 page).

(** The elements that make up a fault report: the form and its submit
    button, the structured record and the plain-text rendering. *)
Definition is_report_element (e : Element) : bool :=
  match e with
  | st_form _ _ | st_form_submit_button _ | st_json _ | st_code _ => true
  | _ => false
  end.

(** The element that shows the fault description: the script calls
    [st.write] for nothing else. *)
Definition is_description (e : Element) : bool :=
  match e with
  | st_write _ => true
  | _ => false
  end.

(** The error box of line 301, shown for a submission with a required
    field left empty. *)
Definition is_validation_error (e : Element) : bool :=
  match e with
  | st_error body =>
      String.eqb body "Please fill in all required fields (marked with *)"
  | _ => false
  end.

(** The elements that carry no description, no part of a report and no
    download. *)
Definition is_plain (e : Element) : bool :=
  match e with
  | st_write _ | st_json _ | st_code _ | st_form _ _
  | st_form_submit_button _ | st_download_button _ _ _ _ => false
  | _ => true
  end.

(** A list of elements none of which, children included, is of the kind
    [P]. *)
Definition free_of (P : Element -> bool) (es : list Element) : Prop :=
  forall e, In e (all_elements es) -> P e = false.

Abbreviation report_free := (free_of is_report_element).
Abbreviation validation_free := (free_of is_validation_error).
Abbreviation description_free := (free_of is_description).
Abbreviation plain := (free_of (fun e => negb (is_plain e))).

(** What a page says about the fault: [shown] is the one description it
    displays, and [embedded] is the description of every structured record
    on it and of the description line, the fifteenth of twenty-three, of
    every plain-text rendering on it. *)
Definition describes (page : Page) (shown embedded : string) : Prop :=
  In (st_write shown) (page_elements page) /\
  (forall d, In (st_write d) (page_elements page) -> d = shown) /\
  (forall report, In (st_json report) (page_elements page) ->
     FaultDetection.description (Report.fault_detection report) = embedded) /\
  (forall text, In (st_code text) (page_elements page) ->
     exists before after : list string,
       text = Py.unlines (before ++ ("- Description: " +:+ embedded) :: after) /\
       length before = 14%nat /\ length after = 8%nat).

(** The run got to line 172: the page holds the report form. *)
Definition form_laid_out (page : Page) : Prop :=
  exists key children, In (st_form key children) (page_elements page).

(** The text of a plain-text rendering. *)
Definition code_text (e : Element) : option string :=
  match e with
  | st_code text => Some text
  | _ => None
  end.

(** The plain-text rendering a page shows, if it shows one. *)
Definition report_shown (page : Page) : option string :=
  head (omap code_text (all_elements (col2 page))).

(** The rendering of the report assembled last among the given pages. *)
Definition last_report_text (pages : list Page) : option string :=
  last (omap report_shown pages).

Section App.

(** The imported helpers and the cached model of [get_model()]. *)
Variable Model : Type.
Variable model : Model.
Variable predict : Image -> Model -> FaultPrediction.
Variable get_fault_info : string -> FaultInfo.t.
Variable find_nearest_office : string -> option ServiceOffice.t.
Variable format_contact_info : ServiceOffice.t -> string.

(** Lines 155-305: the office found for the pincode, the form for a
    faulty panel, or the message that says why there is neither. *)
Definition office_lookup (inp : Inputs) (session : Session) (fault_type : string)
    (confidence : float) (fault_info : FaultInfo.t) : list Element * Session :=
  if lookup_wanted inp then
    if Py.truthy (user_pincode inp) then
      match find_nearest_office (user_pincode inp) with
      | Some office =>
          let shown :=
            [ st_markdown "---";
              st_markdown "### 🏢 Nearest Service Office";
              st_markdown (format_contact_info office) ] in
          if negb (String.eqb fault_type "Healthy Panel") then
            let '(form, session') :=
              fault_report_form inp session fault_type confidence fault_info office in
            ( shown ++ [ st_markdown "---";
                         st_markdown "### 📧 Send Fault Report to Office";
                         form ],
              session' )
          else (shown, session)
      | None =>
          ( [ st_warning "No service office found for this pincode. Please contact our main office." ],
            session )
      end
    else
      ( [ st_info "Please enter a pincode to find the nearest service office." ],
        session )
  else ([], session).

(** Lines 75-153: the analysis of the uploaded image, down to the pincode
    box and its button. *)
Definition analysis (result : FaultPrediction) (fault_info : FaultInfo.t)
  : list Element :=
  [ st_spinner "Analyzing image...";
    st_markdown "### 🧪 Detection Result";
    detection_result (fault_type result) (confidence result) fault_info ]
  ++ fault_details (fault_type result) fault_info
  ++ [ all_predictions result;
       st_markdown "---";
       st_markdown "### 📍 Find Nearest Service Office";
       st_text_input "Enter your Pincode/Zip Code" "e.g., 110001, 400001";
       st_markdown_html "<br>";
       st_button "🔍 Find Office" ].

(** Lines 73-307: the right-hand column. *)
Definition page_col2 (inp : Inputs) (session : Session) : list Element * Session :=
  match uploaded_image inp with
  | Some image =>
      let result := predict image model in
      let fault_type := fault_type result in
      let confidence := confidence result in
      let fault_info := get_fault_info fault_type in
      let '(office_part, session') :=
        office_lookup inp session fault_type confidence fault_info in
      (analysis result fault_info ++ office_part, session')
  | None =>
      ( [ st_info "👆 Please upload an EL image to begin analysis." ], session )
  end.

(** One run of the script. *)
Definition app (inp : Inputs) (session : Session) : Page * Session :=
  let '(shown, session') := page_col2 inp session in
  ( {| top := page_top;
       sidebar := page_sidebar session (now_sidebar inp);
       col1 := page_col1 (uploaded_image inp);
       col2 := shown |},
    session' ).

(** The result of the office lookup of line 157 in the runs that get
    there: a picture was uploaded, line 155 lets the run in and the
    pincode is not empty. *)
Definition lookup_result (inp : Inputs) : option (option ServiceOffice.t) :=
  match uploaded_image inp with
  | Some _ =>
      if lookup_wanted inp && Py.truthy (user_pincode inp)
      then Some (find_nearest_office (user_pincode inp))
      else None
  | None => None
  end.

(** The prediction, the knowledge-base entry and the office with which the
    form of line 172 is laid out, in the runs that get there: the lookup
    found an office and the predicted label is not the healthy one. *)
Definition form_context (inp : Inputs)
  : option (FaultPrediction * FaultInfo.t * ServiceOffice.t) :=
  match uploaded_image inp, lookup_result inp with
  | Some image, Some (Some office) =>
      let result := predict image model in
      if negb (String.eqb (fault_type result) "Healthy Panel")
      then Some (result, get_fault_info (fault_type result), office)
      else None
  | _, _ => None
  end.

(** The pages of a sequence of runs, the oldest first, and the session
    they leave, from a given session. *)
Fixpoint run_all (session : Session) (runs : list Inputs) : list Page * Session :=
  match runs with
  | [] => ([], session)
  | inp :: rest =>
      let '(page, session') := app inp session in
      let '(pages, session'') := run_all session' rest in
      (page :: pages, session'')
  end.

End App.

(** ** The imported helpers, after their contracts *)

Module Predict.

(** The index of the first largest entry: a scan that moves on only to a
    strictly larger value. *)
Fixpoint argmax_from (best : nat) (best_value : float) (i : nat) (xs : list float)
  : nat :=
  match xs with
  | [] => best
  | x :: rest =>
      if (best_value <? x)%float then argmax_from i x (S i) rest
      else argmax_from best best_value (S i) rest
  end.

Definition argmax (xs : list float) : nat :=
  match xs with
  | [] => 0%nat
  | x :: rest => argmax_from 0 x 1 rest
  end.

(** The specification-level float is a NaN. *)
Definition SF_is_nan (f : spec_float) : bool :=
  match f with
  | S754_nan => true
  | _ => false
  end.

(** No entry is a NaN. *)
Definition all_numbers (xs : list float) : bool :=
  forallb (fun x => negb (PrimFloat.is_nan x)) xs.

(** [v] at position [k] is the largest entry of [xs], and the first such:
    no entry exceeds it and every earlier one is strictly smaller. *)
Definition is_first_max (xs : list float) (k : nat) (v : float) : Prop :=
  xs !! k = Some v /\
  (forall j x, xs !! j = Some x -> (x <=? v)%float = true) /\
  (forall j x, xs !! j = Some x -> (j < k)%nat -> (x <? v)%float = true).

Section WithNetwork.

(** The declared labels, the network (preprocessing and forward pass, from
    an image to one raw output per label) and the normalised exponential
    of the tensor library. *)
Variable Model : Type.
Variable CLASS_NAMES : list string.
Variable forward : Model -> Image -> list float.
Variable softmax : list float -> list float.

(** Modelled from the spec: [predict] of [src/predict.py], which is not in
    the sources.  "Applies a deterministic preprocessing transform,
    performs a forward pass, and converts raw outputs to a probability
    distribution via a normalized exponential (softmax) over the fixed
    label set.  The predicted label is the argmax of the distribution;
    ties broken by first-declared label order."  The confidence is the
    probability of the predicted label. *)
Definition predict (image : Image) (model : Model) : FaultPrediction :=
  let probs := softmax (forward model image) in
  let idx := argmax probs in
  {| fault_type := nth idx CLASS_NAMES "";
     confidence := nth idx probs 0%float;
     probabilities := zip CLASS_NAMES probs |}.

End WithNetwork.

End Predict.

Module FaultInfoKB.

(** The record returned for a label outside the table: no key at all. *)
Definition default_info : FaultInfo.t :=
  {| FaultInfo.description := None; FaultInfo.severity := None;
     FaultInfo.symptoms := None; FaultInfo.repair_steps := None;
     FaultInfo.prevention := None; FaultInfo.cost_estimate := None |}.

(** Modelled from the spec: [get_fault_info] of [src/fault_info.py], which
    is not in the sources.  "Pure lookup in an immutable mapping built at
    startup from a fixed set of entries.  Returns a default/empty
    FaultInfo structure (not an error) when a label is outside the known
    set." *)
Definition get_fault_info (FAULT_INFO : gmap string FaultInfo.t) (label : string)
  : FaultInfo.t :=
  default default_info (FAULT_INFO !! label).

End FaultInfoKB.

Module OfficeLocator.

(** The whitespace [str.strip] removes, within ASCII. *)
Definition is_space (a : ascii) : bool :=
  let n := N_of_ascii a in ((n =? 32) || (9 <=? n) && (n <=? 13))%N.

Fixpoint lstrip (s : string) : string :=
  match s with
  | EmptyString => EmptyString
  | String a rest => if is_space a then lstrip rest else s
  end.

Fixpoint rstrip (s : string) : string :=
  match s with
  | EmptyString => EmptyString
  | String a rest =>
      match rstrip rest with
      | EmptyString => if is_space a then EmptyString else String a EmptyString
      | kept => String a kept
      end
  end.

(** [str.upper] on ASCII letters. *)
Definition upper_char (a : ascii) : ascii :=
  let n := N_of_ascii a in
  if ((97 <=? n) && (n <=? 122))%N then ascii_of_N (n - 32) else a.

Fixpoint upper (s : string) : string :=
  match s with
  | EmptyString => EmptyString
  | String a rest => String (upper_char a) (upper rest)
  end.

(** "Normalizes it (trim, case)". *)
Definition normalize (code : string) : string := upper (rstrip (lstrip code)).

(** The entries of the table whose key is a prefix of the code. *)
Definition matching (table : list (string * ServiceOffice.t)) (code : string)
  : list (string * ServiceOffice.t) :=
  filter (fun entry => String.prefix (fst entry) code = true) table.

(** The entry with the longest key, the first one among equals. *)
Fixpoint most_specific (best : option (string * ServiceOffice.t))
    (entries : list (string * ServiceOffice.t)) : option (string * ServiceOffice.t) :=
  match entries with
  | [] => best
  | entry :: rest =>
      match best with
      | Some b =>
          if (String.length (fst b) <? String.length (fst entry))%nat
          then most_specific (Some entry) rest
          else most_specific best rest
      | None => most_specific (Some entry) rest
      end
  end.

(** Modelled from the spec: [find_nearest_office] of
    [src/office_locator.py], which is not in the sources, over its static
    table [OFFICES] of (prefix, office) entries.  "Normalizes it (trim,
    case) and matches against a static table of office records keyed by
    postal-code prefixes, selecting the most specific (longest) matching
    prefix; returns absent when no prefix matches." *)
Definition find_nearest_office (OFFICES : list (string * ServiceOffice.t))
    (code : string) : option ServiceOffice.t :=
  snd <$> most_specific None (matching OFFICES (normalize code)).

(** Modelled from the spec: [format_contact_info] of
    [src/office_locator.py], which is not in the sources.  "Renders a
    fixed-layout human-readable block (name, address, phone, email,
    working hours) with no conditional logic." *)
Definition format_contact_info (office : ServiceOffice.t) : string :=
  Py.join Py.NL
    [ ServiceOffice.office_name office;
      ServiceOffice.address office;
      ServiceOffice.phone office;
      ServiceOffice.email office;
      ServiceOffice.working_hours office ].

End OfficeLocator.

(** ** A sample installation

    Concrete helpers on which the page can be run: eight labels (the
    healthy one and the seven faults of the sidebar), a network with two
    answers, a knowledge base with two entries and two offices. *)

Module Sample.

Definition CLASS_NAMES : list string :=
  [ "Healthy Panel"; "Microcracks"; "Hot Spots"; "Snail Trails";
    "Cell Breakage"; "Delamination"; "Bypass Diode Failure"; "PID" ].

(** The raw outputs: the blank raster is read as healthy, any other
    picture as a hot spot, a picture of one pixel with less confidence. *)
Definition forward (_ : unit) (image : Image) : list float :=
  match image with
  | [] => [8; 2; 1; 1; 1; 1; 1; 1]%float
  | [ [ _ ] ] => [1; 2; 7; 2; 1; 1; 1; 1]%float
  | _ => [1; 2; 8; 2; 1; 1; 0.5; 0.5]%float
  end.

(** A stand-in for the normalised exponential, which the kernel's floats
    cannot compute: every output divided by the sum of all. *)
Definition softmax (xs : list float) : list float :=
  let total := foldr PrimFloat.add 0%float xs in
  map (fun x => (x / total)%float) xs.

Definition predict : Image -> unit -> FaultPrediction :=
  Predict.predict unit CLASS_NAMES forward softmax.

Definition FAULT_INFO : gmap string FaultInfo.t :=
  list_to_map
    [ ("Healthy Panel",
       {| FaultInfo.description := Some "No fault was detected.";
          FaultInfo.severity := None;
          FaultInfo.symptoms := None;
          FaultInfo.repair_steps := Some [ "No repair is needed." ];
          FaultInfo.prevention := Some [ "Clean the panel regularly." ];
          FaultInfo.cost_estimate := None |});
      ("Hot Spots",
       {| FaultInfo.description := Some "Localised overheating of cells.";
          FaultInfo.severity := Some "High";
          FaultInfo.symptoms := Some [ "Bright areas in the EL image" ];
          FaultInfo.repair_steps := Some [ "Isolate the module."; "Replace the cells." ];
          FaultInfo.prevention := Some [ "Avoid partial shading." ];
          FaultInfo.cost_estimate := Some "2000-5000" |}) ].

Definition get_fault_info : string -> FaultInfo.t :=
  FaultInfoKB.get_fault_info FAULT_INFO.

Definition delhi : ServiceOffice.t :=
  {| ServiceOffice.office_name := "Delhi Service Office";
     ServiceOffice.email := "delhi@solarservice.example";
     ServiceOffice.phone := "+91-11-5550100";
     ServiceOffice.address := "Connaught Place, New Delhi";
     ServiceOffice.working_hours := "Mon-Sat 9:00-18:00" |}.

Definition mumbai : ServiceOffice.t :=
  {| ServiceOffice.office_name := "Mumbai Service Office";
     ServiceOffice.email := "mumbai@solarservice.example";
     ServiceOffice.phone := "+91-22-5550100";
     ServiceOffice.address := "Fort, Mumbai";
     ServiceOffice.working_hours := "Mon-Sat 9:00-18:00" |}.

Definition OFFICES : list (string * ServiceOffice.t) :=
  [ ("110", delhi); ("400", mumbai) ].

Definition find_nearest_office : string -> option ServiceOffice.t :=
  OfficeLocator.find_nearest_office OFFICES.

Definition picture : Image := [ [ (12, 12, 12); (240, 240, 240) ] ].
Definition other_picture : Image := [ [ (30, 30, 30) ]; [ (200, 200, 200) ] ].
Definition faint : Image := [ [ (90, 90, 90) ] ].
Definition blank : Image := [].

Definition noon : Py.datetime :=
  {| Py.year := 2024; Py.month := 3; Py.day := 9;
     Py.hour := 12; Py.minute := 0; Py.second := 5 |}.

(** A visitor who uploaded [image], typed [pincode], filled the form with
    [name] and pressed its button if [submit]. *)
Definition visit (image : Image) (pincode name : string) (submit : bool) : Inputs :=
  {| uploaded_image := Some image;
     user_pincode := pincode;
     find_office_btn := false;
     user_name := name;
     user_phone := "+91-9800000000";
     user_email := "asha@example.org";
     panel_location := "Roof";
     additional_notes := "";
     submitted := submit;
     now_sidebar := noon;
     now_report := noon |}.

(** A visitor who uploaded [image], typed [pincode] and pressed the Find
    Office button, the form still empty. *)
Definition find_office (image : Image) (pincode : string) : Inputs :=
  {| uploaded_image := Some image;
     user_pincode := pincode;
     find_office_btn := true;
     user_name := "";
     user_phone := "";
     user_email := "";
     panel_location := "";
     additional_notes := "";
     submitted := false;
     now_sidebar := noon;
     now_report := noon |}.

(** One run of the page on the sample installation. *)
Definition app : Inputs -> Session -> Page * Session :=
  app unit tt predict get_fault_info find_nearest_office
      OfficeLocator.format_contact_info.

End Sample.

(** ** Further readings of the page *)

(** The order in which the probabilities are listed: [x] may stand before
    [y] when the probability of [y] is not larger. *)
Definition by_probability_desc (x y : string * float) : Prop :=
  (snd y <=? snd x)%float = true.

(** The progress bar of line 137 for one class. *)
Definition prediction_bar (item : string * float) : Element :=
  st_progress (snd item) (fst item +:+ ": " +:+ Py.percent_1f (snd item)).

(** The characters line 284 takes out of the phone number. *)
Definition is_separator (a : ascii) : bool :=
  Ascii.eqb a "-" || Ascii.eqb a "+" || Ascii.eqb a " ".

(** The characters a quoted text is made of: the unreserved ones and the
    percent sign of the escapes. *)
Definition url_safe (a : ascii) : bool :=
  Py.unreserved a || Ascii.eqb a "%".

(** The values the report dict holds, leaf by leaf. *)
Definition report_fields (report : Report.t) : list string :=
  [ Report.timestamp report;
    UserDetails.name (Report.user_details report);
    UserDetails.phone (Report.user_details report);
    UserDetails.email (Report.user_details report);
    UserDetails.pincode (Report.user_details report);
    UserDetails.panel_location (Report.user_details report);
    FaultDetection.fault_type (Report.fault_detection report);
    FaultDetection.confidence (Report.fault_detection report);
    FaultDetection.severity (Report.fault_detection report);
    FaultDetection.description (Report.fault_detection report);
    OfficeDetails.office_name (Report.office_details report);
    OfficeDetails.email (Report.office_details report);
    OfficeDetails.phone (Report.office_details report);
    OfficeDetails.address (Report.office_details report);
    Report.additional_notes report ].

(** The two entries of the session belong together: either neither key is
    there, or ['fault_report'] holds the record of a report and
    ['report_text'] the plain-text rendering of that same report. *)
Definition stored_together (session : Session) : Prop :=
  (session !! "fault_report" = None /\ session !! "report_text" = None) \/
  exists (inp : Inputs) (fault_type : string) (confidence : float)
         (fault_info : FaultInfo.t) (office : ServiceOffice.t),
    let report := make_report (Py.strftime_report (now_report inp)) inp
                              fault_type confidence fault_info office in
    session !! "fault_report" = Some (SReport report) /\
    session !! "report_text" =
      Some (SText (make_report_text report inp fault_type confidence
                                    fault_info office)).

(** * Properties *)

(** ** The built-ins at work *)

Example format_1f_ties_to_even : Py.format_1f 6.25 = "6.2".
Proof. vm_compute. reflexivity. Qed.

Example format_1f_rounds_up : Py.format_1f 99.96875 = "100.0".
Proof. vm_compute. reflexivity. Qed.

Example format_1f_negative_zero : Py.format_1f (-0) = "-0.0".
Proof. vm_compute. reflexivity. Qed.

Example format_1f_nan : Py.format_1f nan = "nan".
Proof. vm_compute. reflexivity. Qed.

Example percent_1f_half : Py.percent_1f 0.5 = "50.0%".
Proof. vm_compute. reflexivity. Qed.

Example read_decimal_numerals :
  Py.read_decimal "87" = Some 87 /\ Py.read_decimal "0" = Some 0 /\
  Py.read_decimal "" = None /\ Py.read_decimal "087" = None /\
  Py.read_decimal "8a" = None.
Proof. repeat split. Qed.

Example len_counts_characters : Py.len "🔆 EL" = 4.
Proof. vm_compute. reflexivity. Qed.

Example quote_subject :
  Py.quote "Fault Report - Hot Spots" = "Fault%20Report%20-%20Hot%20Spots".
Proof. vm_compute. reflexivity. Qed.

Example strftime_file_noon : Py.strftime_file Sample.noon = "20240309_120005".
Proof. vm_compute. reflexivity. Qed.

Example sorted_probs_is_stable :
  sorted_probs [("a", 0.25); ("b", 0.5); ("c", 0.25)]%float =
  [("b", 0.5); ("a", 0.25); ("c", 0.25)]%float.
Proof. vm_compute. reflexivity. Qed.

Example argmax_takes_first_of_equals :
  Predict.argmax [0.25; 0.375; 0.375]%float = 1%nat.
Proof. vm_compute. reflexivity. Qed.

Example sample_office_trimmed :
  Sample.find_nearest_office "  110001 " = Some Sample.delhi.
Proof. vm_compute. reflexivity. Qed.

(** ** Texts *)

Lemma append_nil_l (b : string) : "" +:+ b = b.
Proof. reflexivity. Qed.

Lemma append_cons (x : ascii) (a b : string) :
  String x a +:+ b = String x (a +:+ b).
Proof. reflexivity. Qed.

Lemma append_assoc (a b c : string) : (a +:+ b) +:+ c = a +:+ b +:+ c.
Proof.
  induction a as [|x a IH]; [reflexivity|].
  now rewrite !append_cons, IH.
Qed.

Lemma append_empty_r (a : string) : a +:+ "" = a.
Proof.
  induction a as [|x a IH]; [reflexivity|].
  now rewrite append_cons, IH.
Qed.

Lemma contains_refl (x : string) : Py.contains x x.
Proof. exists "", "". now rewrite append_nil_l, append_empty_r. Qed.

Lemma contains_append_l (a text x : string) :
  Py.contains text x -> Py.contains (a +:+ text) x.
Proof.
  intros (before & after & ->). exists (a +:+ before), after.
  now rewrite append_assoc.
Qed.

Lemma contains_append_r (text b x : string) :
  Py.contains text x -> Py.contains (text +:+ b) x.
Proof.
  intros (before & after & ->). exists before, (after +:+ b).
  now rewrite !append_assoc.
Qed.

(** A line of a text made by [Py.unlines] occurs in it, and so does every
    piece of that line. *)
Lemma contains_unlines (ls : list string) (l x : string) :
  In l ls -> Py.contains l x -> Py.contains (Py.unlines ls) x.
Proof.
  induction ls as [|l0 ls IH]; simpl; [tauto|].
  intros [-> | Hin] Hx.
  - now apply contains_append_r.
  - apply contains_append_l, contains_append_l. now apply IH.
Qed.

(** ** Numbers in texts *)

Lemma all_digits_string_of_uint (d : uint) :
  Py.all_digits (NilEmpty.string_of_uint d) = true.
Proof. induction d; simpl; auto. Qed.

Lemma decimal_digits (n : Z) :
  Py.decimal n <> "" /\ Py.all_digits (Py.decimal n) = true.
Proof.
  unfold Py.decimal, NilZero.string_of_uint.
  destruct (N.to_uint (Z.to_N n)) as [|d|d|d|d|d|d|d|d|d|d] eqn:Hd;
    (split; [discriminate|]); try reflexivity;
    rewrite <- Hd at 1; rewrite Hd; apply all_digits_string_of_uint.
Qed.

Lemma decimal_one_digit (k : Z) :
  0 <= k < 10 ->
  exists d : ascii, Py.decimal k = String d "" /\ Py.is_digit d = true.
Proof.
  intros Hk.
  assert (Hcases : k = 0 \/ k = 1 \/ k = 2 \/ k = 3 \/ k = 4 \/
                   k = 5 \/ k = 6 \/ k = 7 \/ k = 8 \/ k = 9) by lia.
  repeat (destruct Hcases as [-> | Hcases];
          [eexists; split; reflexivity|]).
  subst k. eexists; split; reflexivity.
Qed.

(** A number of tenths is printed as digits, the point and one digit. *)
Lemma fixed1_shape (t : Z) :
  exists (whole : string) (tenth : ascii),
    Py.fixed1 t = whole +:+ "." +:+ String tenth "" /\
    whole <> "" /\ Py.all_digits whole = true /\ Py.is_digit tenth = true.
Proof.
  destruct (decimal_one_digit (t mod 10)) as (tenth & Htenth & Hdigit).
  { apply Z.mod_pos_bound. lia. }
  destruct (decimal_digits (t / 10)) as (Hne & Hdigits).
  exists (Py.decimal (t / 10)), tenth. unfold Py.fixed1. rewrite Htenth. auto.
Qed.

(** The [.1f] format of a finite number followed by the percent sign is a
    percentage with one decimal place. *)
Lemma percent_1f_one_decimal (x : float) :
  Py.is_finite (x * 100)%float = true ->
  Py.one_decimal_percent (Py.percent_1f x).
Proof.
  unfold Py.is_finite, Py.percent_1f, Py.format_1f.
  destruct (Prim2SF (x * 100)%float) as [s|s| |s m e]; try discriminate; intros _.
  - exists (if s then "-" else ""), "0", "0"%char.
    repeat split; [now destruct s | destruct s; auto | discriminate].
  - destruct (fixed1_shape (Py.tenths m e)) as (whole & tenth & -> & Hne & Hd & Ht).
    exists (if s then "-" else ""), whole, tenth.
    repeat split; try assumption; [|destruct s; auto].
    now rewrite !append_assoc.
Qed.

(** Reading gives back the number that was written. *)
Lemma read_decimal_decimal (n : Z) :
  0 <= n -> Py.read_decimal (Py.decimal n) = Some n.
Proof.
  intros Hn. unfold Py.read_decimal, Py.decimal.
  rewrite NilZero.usu.
  - assert (Hcanonical : Decimal.unorm (N.to_uint (Z.to_N n)) =
                         N.to_uint (Z.to_N n)).
    { rewrite <- DecimalN.Unsigned.to_of. f_equal.
      apply DecimalN.Unsigned.of_to. }
    rewrite Hcanonical, Decimal.internal_uint_dec_lb by reflexivity.
    rewrite DecimalN.Unsigned.of_to. f_equal. lia.
  - destruct (Z.to_N n) as [|p]; [discriminate|].
    apply DecimalPos.Unsigned.to_uint_nonnil.
Qed.

(** The quotient the rounding picks is a nearest one, and the even one of
    the two nearest on a tie. *)
Lemma round_half_even_nearest (n d : Z) :
  0 <= n -> 0 < d ->
  let q := Py.round_half_even n d in
  0 <= q /\
  2 * Z.abs (n - q * d) <= d /\
  (2 * Z.abs (n - q * d) = d -> Z.even q = true).
Proof.
  intros Hn Hd. cbv zeta. unfold Py.round_half_even.
  pose proof (Z.div_mod n d ltac:(lia)) as Hdiv.
  pose proof (Z.mod_pos_bound n d Hd) as Hmod.
  pose proof (Z.div_pos n d Hn Hd) as Hquot.
  set (q := n / d) in *. set (r := n mod d) in *.
  assert (Hr : n - q * d = r) by lia.
  assert (Hr1 : n - (q + 1) * d = r - d) by lia.
  destruct (Z.compare_spec (2 * r) d) as [Htie | Hbelow | Habove].
  - destruct (Z.even q) eqn:Heven.
    + rewrite Hr. repeat split; try lia. now intros _.
    + rewrite Hr1. repeat split; try lia. intros _.
      rewrite Z.even_add, Heven. reflexivity.
  - rewrite Hr. repeat split; lia.
  - rewrite Hr1. repeat split; lia.
Qed.

Lemma tenths_rounds (m : positive) (e : Z) :
  0 <= Py.tenths m e /\ Py.rounds_to_tenths m e (Py.tenths m e).
Proof.
  unfold Py.tenths, Py.rounds_to_tenths. cbv zeta.
  destruct (Z.leb_spec 0 e) as [Hpos | Hneg].
  - rewrite (Z.max_l e 0), (Z.max_r (- e) 0) by lia.
    assert (0 < 2 ^ e) by (apply Z.pow_pos_nonneg; lia).
    change (2 ^ 0) with 1. split; [lia|]. split; lia.
  - rewrite (Z.max_r e 0), (Z.max_l (- e) 0) by lia.
    change (2 ^ 0) with 1. rewrite Z.mul_1_r.
    assert (Hden : 0 < 2 ^ (- e)) by (apply Z.pow_pos_nonneg; lia).
    destruct (round_half_even_nearest (10 * Z.pos m) (2 ^ (- e)) ltac:(lia) Hden)
      as (Hq & Hnear & Htie).
    auto.
Qed.

(** A number of tenths is written as its whole part, the point and its
    last digit. *)
Lemma fixed1_reads (t : Z) :
  0 <= t ->
  exists (whole : string) (tenth : ascii),
    Py.fixed1 t = whole +:+ "." +:+ String tenth "" /\
    Py.read_decimal whole = Some (t / 10) /\
    Py.read_decimal (String tenth "") = Some (t mod 10).
Proof.
  intros Ht.
  destruct (decimal_one_digit (t mod 10)) as (tenth & Htenth & _).
  { apply Z.mod_pos_bound. lia. }
  exists (Py.decimal (t / 10)), tenth. unfold Py.fixed1. rewrite Htenth.
  split; [reflexivity|]. split.
  - apply read_decimal_decimal. apply Z.div_pos; lia.
  - rewrite <- Htenth. apply read_decimal_decimal.
    apply Z.mod_pos_bound. lia.
Qed.

(** The [.1f] format writes a finite number to one decimal place. *)
Lemma format_1f_written (x : float) :
  Py.is_finite x = true -> Py.written_to_one_decimal x (Py.format_1f x).
Proof.
  unfold Py.is_finite, Py.format_1f, Py.written_to_one_decimal.
  destruct (Prim2SF x) as [sign|sign| |sign m e]; try discriminate; intros _.
  - exists sign, "0", "0"%char, 0. repeat split. lia.
  - destruct (tenths_rounds m e) as (Ht & Hrounds).
    destruct (fixed1_reads (Py.tenths m e) Ht) as (whole & tenth & -> & Hw & Hd).
    exists sign, whole, tenth, (Py.tenths m e). auto 10.
Qed.

(** The replacement field of the f-strings writes the confidence as a
    percentage with one decimal place. *)
Lemma percent_1f_to_one_decimal (confidence : float) :
  Py.is_finite (confidence * 100)%float = true ->
  Py.percent_to_one_decimal confidence (Py.percent_1f confidence).
Proof.
  intros Hfinite. exists (Py.format_1f (confidence * 100)%float).
  split; [reflexivity | now apply format_1f_written].
Qed.

(** A quarter is written as 25.0%, and no other percentage will do for
    it. *)
Example quarter_is_not_fifty_percent :
  Py.percent_to_one_decimal 0.25 "25.0%" /\
  ~ Py.percent_to_one_decimal 0.25 "50.0%".
Proof.
  split; [now apply (percent_1f_to_one_decimal 0.25)|].
  intros (s & Hs & negative & whole & tenth & t & Heq & Ht & Hwhole & Htenth & Hfloat).
  change (Prim2SF (0.25 * 100)%float)
    with (S754_finite false 7036874417766400 (-48)) in Hfloat.
  destruct Hfloat as (-> & Hnear & _).
  assert (Hnear' : 2 * Z.abs (70368744177664000 - t * 281474976710656) <=
                   281474976710656) by exact Hnear.
  assert (t = 250) as -> by lia.
  change (250 / 10) with 25 in Hwhole.
  rewrite append_nil_l in Heq. subst s.
  destruct whole as [|a [|b [|c [|d [|e [|f whole]]]]]];
    cbv [String.append] in Hs; try discriminate.
  injection Hs as Ha Hb _. subst a b. vm_compute in Hwhole. discriminate.
Qed.

(** ** Elements *)

Lemma nested_children (es : list Element) :
  (fix all (es : list Element) : list Element :=
     match es with
     | [] => []
     | e0 :: rest => nested e0 ++ all rest
     end) es = all_elements es.
Proof. induction es as [|e es IH]; simpl; [reflexivity | now rewrite IH]. Qed.

Lemma nested_form (key : string) (children : list Element) :
  nested (st_form key children) = st_form key children :: all_elements children.
Proof. simpl. now rewrite nested_children. Qed.

Lemma nested_expander (label : string) (children : list Element) :
  nested (st_expander label children) =
  st_expander label children :: all_elements children.
Proof. simpl. now rewrite nested_children. Qed.

Lemma all_elements_app (es1 es2 : list Element) :
  all_elements (es1 ++ es2) = all_elements es1 ++ all_elements es2.
Proof. apply flat_map_app. Qed.

Lemma all_elements_cons (e : Element) (es : list Element) :
  all_elements (e :: es) = nested e ++ all_elements es.
Proof. reflexivity. Qed.

(** The top-level elements of a container are among all its elements. *)
Lemma In_all_elements (e : Element) (es : list Element) :
  In e es -> In e (all_elements es).
Proof.
  intros Hin. apply in_flat_map. exists e. split; [assumption|].
  destruct e; simpl; auto.
Qed.

Section FreeOf.

Variable P : Element -> bool.

Lemma free_of_nil : free_of P [].
Proof. intros e []. Qed.

Lemma free_of_app (es1 es2 : list Element) :
  free_of P es1 -> free_of P es2 -> free_of P (es1 ++ es2).
Proof.
  intros H1 H2 e. rewrite all_elements_app, in_app_iff. intros [H | H]; auto.
Qed.

Lemma free_of_cons (e : Element) (es : list Element) :
  free_of P [e] -> free_of P es -> free_of P (e :: es).
Proof. intros H1 H2. exact (free_of_app [e] es H1 H2). Qed.

Lemma free_of_expander (label : string) (children : list Element) :
  P (st_expander label children) = false ->
  free_of P children -> free_of P [st_expander label children].
Proof.
  intros Hself H e. unfold all_elements. simpl flat_map.
  rewrite nested_children, app_nil_r. intros [<- | Hin]; [exact Hself | auto].
Qed.

Hypothesis P_markdown : forall body, P (st_markdown body) = false.

Lemma free_of_bulleted (items : list string) : free_of P (bulleted items).
Proof.
  induction items as [|item items IH]; [apply free_of_nil|].
  apply free_of_cons; [|exact IH].
  intros e [<- | []]. apply P_markdown.
Qed.

Lemma free_of_numbered (i : Z) (steps : list string) :
  free_of P (numbered i steps).
Proof.
  revert i. induction steps as [|step steps IH]; intros i; [apply free_of_nil|].
  apply free_of_cons; [|apply IH].
  intros e [<- | []]. apply P_markdown.
Qed.

End FreeOf.

(** Closes [free_of] goals on lists written out in the script. *)
Ltac free_of_literal :=
  let e := fresh "e" in
  let H := fresh "H" in
  intros e H; cbn in H;
  repeat (destruct H as [<- | H]; [reflexivity|]); destruct H.

(** Plain elements are of no kind that excludes them. *)
Lemma plain_free_of (P : Element -> bool) (es : list Element) :
  (forall e, is_plain e = true -> P e = false) -> plain es -> free_of P es.
Proof.
  intros HP Hplain e Hin. apply HP.
  apply Hplain in Hin. now destruct (is_plain e).
Qed.

Lemma plain_detection_result (fault_type : string) (confidence : float)
    (fault_info : FaultInfo.t) :
  plain [detection_result fault_type confidence fault_info].
Proof.
  unfold detection_result.
  destruct (String.eqb fault_type "Healthy Panel");
    [|destruct (get_eq (FaultInfo.severity fault_info) "High");
      [|destruct (get_eq (FaultInfo.severity fault_info) "Medium")]];
    free_of_literal.
Qed.

Lemma plain_all_predictions (result : FaultPrediction) :
  plain [all_predictions result].
Proof.
  apply free_of_expander; [reflexivity|].
  apply free_of_cons; [free_of_literal|].
  induction (sorted_probs (probabilities result)) as [|item items IH];
    [apply free_of_nil|].
  simpl map. apply free_of_cons; [free_of_literal | exact IH].
Qed.

(** The description aside, the details of lines 95-126 are plain. *)
Lemma fault_details_elements (fault_type : string) (fault_info : FaultInfo.t)
    (e : Element) :
  In e (all_elements (fault_details fault_type fault_info)) ->
  e = st_write (default "No description available."
                        (FaultInfo.description fault_info)) \/
  is_plain e = true.
Proof.
  assert (Hplain : forall es, plain es -> In e (all_elements es) ->
                              is_plain e = true).
  { intros es Hes Hin. apply Hes in Hin. now destruct (is_plain e). }
  unfold fault_details. rewrite all_elements_app, in_app_iff.
  intros [Hin | Hin].
  - cbn in Hin. destruct Hin as [<- | [<- | [<- | []]]]; auto.
  - right. revert Hin. apply Hplain.
    repeat apply free_of_app.
    + destruct (negb _); free_of_literal.
    + destruct (FaultInfo.symptoms fault_info); [|apply free_of_nil].
      apply free_of_cons; [free_of_literal | now apply free_of_bulleted].
    + free_of_literal.
    + now apply free_of_numbered.
    + free_of_literal.
    + now apply free_of_bulleted.
    + destruct (FaultInfo.cost_estimate fault_info); free_of_literal.
Qed.

(** The description aside, the analysis of lines 75-153 is plain. *)
Lemma analysis_elements (result : FaultPrediction) (fault_info : FaultInfo.t)
    (e : Element) :
  In e (all_elements (analysis result fault_info)) ->
  e = st_write (default "No description available."
                        (FaultInfo.description fault_info)) \/
  is_plain e = true.
Proof.
  assert (Hplain : forall es, plain es -> In e (all_elements es) ->
                              is_plain e = true).
  { intros es Hes Hin. apply Hes in Hin. now destruct (is_plain e). }
  unfold analysis. rewrite !all_elements_app, !in_app_iff.
  intros [Hin | [Hin | Hin]].
  - right. revert Hin. apply Hplain.
    apply free_of_cons; [free_of_literal|].
    apply free_of_cons; [free_of_literal|].
    apply plain_detection_result.
  - now apply fault_details_elements in Hin.
  - right. revert Hin. apply Hplain.
    apply free_of_cons; [apply plain_all_predictions | free_of_literal].
Qed.

(** The analysis holds no part of a report. *)
Lemma report_free_analysis (result : FaultPrediction) (fault_info : FaultInfo.t) :
  report_free (analysis result fault_info).
Proof.
  intros e [-> | Hplain]%analysis_elements; [reflexivity|].
  now destruct e.
Qed.

Lemma report_free_page_top : report_free page_top.
Proof. unfold page_top. free_of_literal. Qed.

Lemma report_free_page_sidebar (session : Session) (now : Py.datetime) :
  report_free (page_sidebar session now).
Proof.
  unfold page_sidebar. apply free_of_app; [free_of_literal|].
  destruct (session !! "fault_report"); free_of_literal.
Qed.

Lemma report_free_page_col1 (uploaded : option Image) :
  report_free (page_col1 uploaded).
Proof. unfold page_col1. destruct uploaded; free_of_literal. Qed.

(** The validation error is no part of the analysis: the headline of the
    result, the one error box there, starts with two asterisks. *)
Lemma validation_free_analysis (result : FaultPrediction) (fault_info : FaultInfo.t) :
  validation_free (analysis result fault_info).
Proof.
  unfold analysis. apply free_of_app; [|apply free_of_app].
  - apply free_of_cons; [free_of_literal|].
    apply free_of_cons; [free_of_literal|].
    unfold detection_result.
    destruct (String.eqb (fault_type result) "Healthy Panel");
      [|destruct (get_eq (FaultInfo.severity fault_info) "High");
        [|destruct (get_eq (FaultInfo.severity fault_info) "Medium")]];
      intros e [<- | []]; reflexivity.
  - unfold fault_details. repeat apply free_of_app.
    + free_of_literal.
    + destruct (negb _); free_of_literal.
    + destruct (FaultInfo.symptoms fault_info); [|apply free_of_nil].
      apply free_of_cons; [free_of_literal | now apply free_of_bulleted].
    + free_of_literal.
    + now apply free_of_numbered.
    + free_of_literal.
    + now apply free_of_bulleted.
    + destruct (FaultInfo.cost_estimate fault_info); free_of_literal.
  - apply free_of_cons; [|free_of_literal].
    apply free_of_expander; [reflexivity|].
    apply free_of_cons; [free_of_literal|].
    induction (sorted_probs (probabilities result)) as [|item items IH];
      [apply free_of_nil|].
    simpl map. apply free_of_cons; [free_of_literal | exact IH].
Qed.

Lemma validation_free_page_top : validation_free page_top.
Proof. unfold page_top. free_of_literal. Qed.

Lemma validation_free_page_sidebar (session : Session) (now : Py.datetime) :
  validation_free (page_sidebar session now).
Proof.
  unfold page_sidebar. apply free_of_app; [free_of_literal|].
  destruct (session !! "fault_report"); free_of_literal.
Qed.

Lemma validation_free_page_col1 (uploaded : option Image) :
  validation_free (page_col1 uploaded).
Proof. unfold page_col1. destruct uploaded; free_of_literal. Qed.

(** The form shows the validation error for nothing but a submission with
    a required field left empty. *)
Lemma on_submit_validation (inp : Inputs) (session : Session) (fault_type : string)
    (confidence : float) (fault_info : FaultInfo.t) (office : ServiceOffice.t)
    (e : Element) :
  In e (all_elements
          (fst (on_submit inp session fault_type confidence fault_info office))) ->
  is_validation_error e = true ->
  submitted inp = true /\
  Py.truthy (user_name inp) && Py.truthy (user_phone inp) &&
  Py.truthy (user_email inp) = false.
Proof.
  unfold on_submit.
  destruct (submitted inp); [|intros []].
  destruct (Py.truthy (user_name inp) && Py.truthy (user_phone inp) &&
            Py.truthy (user_email inp)).
  - cbn. intros Hin.
    repeat (destruct Hin as [<- | Hin]; [discriminate|]).
    destruct Hin.
  - intros _ _. split; reflexivity.
Qed.

(** An element created inside a form or an expander of a container is
    among all its elements. *)
Lemma In_form_child (key : string) (children es : list Element) (e : Element) :
  In (st_form key children) es -> In e (all_elements children) ->
  In e (all_elements es).
Proof.
  intros Hform He. apply in_flat_map. exists (st_form key children).
  split; [assumption|]. rewrite nested_form. now right.
Qed.

Lemma In_expander_child (label : string) (children es : list Element) (e : Element) :
  In (st_expander label children) es -> In e (all_elements children) ->
  In e (all_elements es).
Proof.
  intros Hexp He. apply in_flat_map. exists (st_expander label children).
  split; [assumption|]. rewrite nested_expander. now right.
Qed.

Lemma truthy_false (s : string) : Py.truthy s = false <-> s = "".
Proof. destruct s; simpl; split; congruence. Qed.

Lemma truthy_true (s : string) : Py.truthy s = true <-> s <> "".
Proof. destruct s; simpl; split; congruence. Qed.

(** All three required fields are filled exactly when none is empty. *)
Lemma required_fields_filled (inp : Inputs) :
  Py.truthy (user_name inp) && Py.truthy (user_phone inp) &&
  Py.truthy (user_email inp) = true <->
  user_name inp <> "" /\ user_phone inp <> "" /\ user_email inp <> "".
Proof. rewrite !andb_true_iff, !truthy_true. tauto. Qed.

Lemma required_fields_missing (inp : Inputs) :
  Py.truthy (user_name inp) && Py.truthy (user_phone inp) &&
  Py.truthy (user_email inp) = false <->
  user_name inp = "" \/ user_phone inp = "" \/ user_email inp = "".
Proof. rewrite !andb_false_iff, !truthy_false. tauto. Qed.

Lemma description_free_page_top : description_free page_top.
Proof. unfold page_top. free_of_literal. Qed.

Lemma description_free_page_sidebar (session : Session) (now : Py.datetime) :
  description_free (page_sidebar session now).
Proof.
  unfold page_sidebar. apply free_of_app; [free_of_literal|].
  destruct (session !! "fault_report"); free_of_literal.
Qed.

Lemma description_free_page_col1 (uploaded : option Image) :
  description_free (page_col1 uploaded).
Proof. unfold page_col1. destruct uploaded; free_of_literal. Qed.

(** What the form shows after a submission, by kind: no description, and
    no record or rendering but those of the report it has just built. *)
Lemma on_submit_elements (inp : Inputs) (session : Session) (fault_type : string)
    (confidence : float) (fault_info : FaultInfo.t) (office : ServiceOffice.t)
    (e : Element) :
  In e (all_elements
          (fst (on_submit inp session fault_type confidence fault_info office))) ->
  let report := make_report (Py.strftime_report (now_report inp)) inp fault_type
                            confidence fault_info office in
  is_description e = false /\
  (forall r, e = st_json r -> r = report) /\
  (forall text, e = st_code text ->
     text = make_report_text report inp fault_type confidence fault_info office).
Proof.
  unfold on_submit.
  destruct (submitted inp); [|intros []].
  destruct (Py.truthy (user_name inp) && Py.truthy (user_phone inp) &&
            Py.truthy (user_email inp)).
  - cbn. intros Hin.
    repeat (destruct Hin as [<- | Hin];
            [repeat split; intros; congruence|]).
    destruct Hin.
  - cbn. intros [<- | []]. repeat split; intros; congruence.
Qed.

(** A list without parts of a report shows no rendering. *)
Lemma no_code_text (es : list Element) :
  (forall e, In e es -> is_report_element e = false) -> omap code_text es = [].
Proof.
  induction es as [|e es IH]; intros Hfree; [reflexivity|].
  cbn. destruct e; cbn; try (apply IH; intros; apply Hfree; now right).
  specialize (Hfree _ (or_introl eq_refl)). discriminate.
Qed.

(** ** One run of the page *)

Section AppProperties.

Variable Model : Type.
Variable model : Model.
Variable predict : Image -> Model -> FaultPrediction.
Variable get_fault_info : string -> FaultInfo.t.
Variable find_nearest_office : string -> option ServiceOffice.t.
Variable format_contact_info : ServiceOffice.t -> string.

Local Abbreviation run :=
  (app Model model predict get_fault_info find_nearest_office format_contact_info).
Local Abbreviation context :=
  (form_context Model model predict get_fault_info find_nearest_office).
Local Abbreviation lookup := (lookup_result find_nearest_office).
Local Abbreviation history :=
  (run_all Model model predict get_fault_info find_nearest_office
           format_contact_info).
Local Abbreviation office_part :=
  (office_lookup find_nearest_office format_contact_info).

(** The office found, as lines 160-164 show it. *)
Local Abbreviation office_shown office :=
  [ st_markdown "---";
    st_markdown "### 🏢 Nearest Service Office";
    st_markdown (format_contact_info office) ].

(** The page of a run that uploaded a picture. *)
Lemma run_uploaded (inp : Inputs) (session : Session) (image : Image) :
  uploaded_image inp = Some image ->
  let result := predict image model in
  let fault_info := get_fault_info (fault_type result) in
  let office :=
    office_part inp session (fault_type result) (confidence result) fault_info in
  run inp session =
  ( {| top := page_top;
       sidebar := page_sidebar session (now_sidebar inp);
       col1 := page_col1 (uploaded_image inp);
       col2 := analysis result fault_info ++ fst office |},
    snd office ).
Proof.
  intros Himage. cbv zeta. unfold app, page_col2. rewrite Himage.
  destruct (office_lookup _ _ _ _ _ _ _) as [shown session']. reflexivity.
Qed.

(** The page of a run that lays out the form. *)
Lemma run_with_form (inp : Inputs) (session : Session) (result : FaultPrediction)
    (fault_info : FaultInfo.t) (office : ServiceOffice.t) :
  context inp = Some (result, fault_info, office) ->
  let outcome :=
    on_submit inp session (fault_type result) (confidence result) fault_info office in
  run inp session =
  ( {| top := page_top;
       sidebar := page_sidebar session (now_sidebar inp);
       col1 := page_col1 (uploaded_image inp);
       col2 := analysis result fault_info ++ office_shown office
               ++ [ st_markdown "---";
                    st_markdown "### 📧 Send Fault Report to Office";
                    st_form "fault_report_form" (form_widgets ++ fst outcome) ] |},
    snd outcome ).
Proof.
  unfold form_context, lookup_result.
  destruct (uploaded_image inp) as [image|] eqn:Himage; [|discriminate].
  destruct (lookup_wanted inp && Py.truthy (user_pincode inp)) eqn:Hlooked;
    [|discriminate].
  destruct (find_nearest_office (user_pincode inp)) as [office'|] eqn:Hoffice;
    [|discriminate].
  destruct (negb _) eqn:Hfaulty; [|discriminate].
  intros [= <- <- <-]. cbv zeta.
  apply andb_true_iff in Hlooked as [Hwanted Htyped].
  rewrite (run_uploaded inp session image Himage). cbv zeta.
  unfold office_lookup, fault_report_form.
  rewrite Hwanted, Htyped, Hoffice, Hfaulty.
  destruct (on_submit _ _ _ _ _ _) as [shown session'].
  simpl fst; simpl snd. rewrite Himage. reflexivity.
Qed.

(** Without the form, a run leaves the session alone and its page holds
    no part of a report. *)
Lemma run_without_form (inp : Inputs) (session : Session) :
  context inp = None ->
  snd (run inp session) = session /\
  report_free (top (fst (run inp session)) ++ sidebar (fst (run inp session)) ++
               col1 (fst (run inp session)) ++ col2 (fst (run inp session))).
Proof.
  intros Hnone.
  assert (Hstatic : forall shown,
            report_free shown ->
            report_free (page_top ++ page_sidebar session (now_sidebar inp) ++
                         page_col1 (uploaded_image inp) ++ shown)).
  { intros shown Hshown.
    apply free_of_app; [apply report_free_page_top|].
    apply free_of_app; [apply report_free_page_sidebar|].
    apply free_of_app; [apply report_free_page_col1 | exact Hshown]. }
  destruct (uploaded_image inp) as [image|] eqn:Himage.
  - rewrite (run_uploaded inp session image Himage).
    cbn [fst snd top sidebar col1 col2]. rewrite Himage.
    unfold form_context, lookup_result in Hnone. rewrite Himage in Hnone.
    unfold office_lookup.
    destruct (lookup_wanted inp) eqn:Hwanted;
      cbn [andb fst snd] in Hnone |- *;
      [|split; [reflexivity|]; apply Hstatic; rewrite app_nil_r;
        apply report_free_analysis].
    destruct (Py.truthy (user_pincode inp)) eqn:Htyped;
      cbn [fst snd] in Hnone |- *;
      [|split; [reflexivity|]; apply Hstatic, free_of_app;
        [apply report_free_analysis | free_of_literal]].
    destruct (find_nearest_office (user_pincode inp)) as [office|] eqn:Hoffice;
      cbn [fst snd] in Hnone |- *;
      [|split; [reflexivity|]; apply Hstatic, free_of_app;
        [apply report_free_analysis | free_of_literal]].
    destruct (negb _) eqn:Hfaulty; [discriminate|]. cbn [fst snd].
    split; [reflexivity|]. apply Hstatic, free_of_app;
      [apply report_free_analysis | free_of_literal].
  - unfold app, page_col2. rewrite Himage.
    cbn [fst snd top sidebar col1 col2]. split; [reflexivity|].
    apply Hstatic. free_of_literal.
Qed.

(** On a page with the form, the parts of a report are the form and what
    is inside it. *)
Lemma report_elements_in_form (inp : Inputs) (session : Session)
    (result : FaultPrediction) (fault_info : FaultInfo.t) (office : ServiceOffice.t)
    (e : Element) :
  context inp = Some (result, fault_info, office) ->
  In e (page_elements (fst (run inp session))) ->
  is_report_element e = true ->
  let shown :=
    fst (on_submit inp session (fault_type result) (confidence result)
                   fault_info office) in
  e = st_form "fault_report_form" (form_widgets ++ shown) \/
  In e (all_elements (form_widgets ++ shown)).
Proof.
  intros Hctx Hin He. cbv zeta.
  rewrite (run_with_form inp session result fault_info office Hctx) in Hin.
  unfold page_elements in Hin. cbn [fst top sidebar col1 col2] in Hin.
  rewrite !all_elements_app, !in_app_iff in Hin.
  destruct Hin as [Hin | [Hin | [Hin | [Hin | [Hin | Hin]]]]].
  - apply report_free_page_top in Hin. congruence.
  - apply report_free_page_sidebar in Hin. congruence.
  - apply report_free_page_col1 in Hin. congruence.
  - apply report_free_analysis in Hin. congruence.
  - cbn in Hin. destruct Hin as [<- | [<- | [<- | []]]]; discriminate.
  - rewrite !all_elements_cons, nested_form in Hin. cbn in Hin.
    destruct Hin as [<- | [<- | [<- | Hin]]]; try discriminate; [now left|].
    right. now rewrite app_nil_r in Hin.
Qed.

(** An element inside the form of a page with the form is on the page. *)
Lemma form_child_on_page (inp : Inputs) (session : Session)
    (result : FaultPrediction) (fault_info : FaultInfo.t) (office : ServiceOffice.t)
    (e : Element) :
  context inp = Some (result, fault_info, office) ->
  In e (all_elements
          (fst (on_submit inp session (fault_type result) (confidence result)
                          fault_info office))) ->
  In e (page_elements (fst (run inp session))).
Proof.
  intros Hctx Hin.
  rewrite (run_with_form inp session result fault_info office Hctx).
  unfold page_elements. cbn [fst top sidebar col1 col2].
  set (children := form_widgets ++ _).
  apply (In_form_child "fault_report_form" children).
  - rewrite !in_app_iff. do 5 right. right; right; left. reflexivity.
  - subst children. rewrite all_elements_app, in_app_iff. now right.
Qed.

(** [form_context] says when the form is laid out: a page holds a form
    exactly in the runs for which it is defined. *)
Lemma form_laid_out_iff (inp : Inputs) (session : Session) :
  (exists key children,
     In (st_form key children) (page_elements (fst (run inp session)))) <->
  is_Some (context inp).
Proof.
  destruct (context inp) as [[[result fault_info] office]|] eqn:Hctx; split.
  - eauto.
  - intros _. eexists _, _.
    rewrite (run_with_form inp session result fault_info office Hctx).
    unfold page_elements. cbn [fst top sidebar col1 col2].
    apply In_all_elements. rewrite !in_app_iff. do 5 right.
    right; right; left. reflexivity.
  - intros (key & children & Hin).
    destruct (run_without_form inp session Hctx) as (_ & Hfree).
    apply Hfree in Hin. discriminate.
  - intros [? [=]].
Qed.

(** Without the form, the page shows no validation error. *)
Lemma run_without_form_validation (inp : Inputs) (session : Session) :
  context inp = None ->
  validation_free (top (fst (run inp session)) ++ sidebar (fst (run inp session)) ++
                   col1 (fst (run inp session)) ++ col2 (fst (run inp session))).
Proof.
  intros Hnone.
  assert (Hstatic : forall shown,
            validation_free shown ->
            validation_free (page_top ++ page_sidebar session (now_sidebar inp) ++
                             page_col1 (uploaded_image inp) ++ shown)).
  { intros shown Hshown.
    apply free_of_app; [apply validation_free_page_top|].
    apply free_of_app; [apply validation_free_page_sidebar|].
    apply free_of_app; [apply validation_free_page_col1 | exact Hshown]. }
  destruct (uploaded_image inp) as [image|] eqn:Himage.
  - rewrite (run_uploaded inp session image Himage).
    cbn [fst snd top sidebar col1 col2]. rewrite Himage.
    unfold form_context, lookup_result in Hnone. rewrite Himage in Hnone.
    unfold office_lookup.
    destruct (lookup_wanted inp) eqn:Hwanted;
      cbn [andb fst snd] in Hnone |- *;
      [|apply Hstatic; rewrite app_nil_r; apply validation_free_analysis].
    destruct (Py.truthy (user_pincode inp)) eqn:Htyped;
      cbn [fst snd] in Hnone |- *;
      [|apply Hstatic, free_of_app;
        [apply validation_free_analysis | free_of_literal]].
    destruct (find_nearest_office (user_pincode inp)) as [office|] eqn:Hoffice;
      cbn [fst snd] in Hnone |- *;
      [|apply Hstatic, free_of_app;
        [apply validation_free_analysis | free_of_literal]].
    destruct (negb _) eqn:Hfaulty; [discriminate|]. cbn [fst snd].
    apply Hstatic, free_of_app;
      [apply validation_free_analysis | free_of_literal].
  - unfold app, page_col2. rewrite Himage.
    cbn [fst snd top sidebar col1 col2].
    apply Hstatic. free_of_literal.
Qed.

(** The validation error is on the page only in a run that lays the form
    out, was caused by its submit button and has a required field empty. *)
Lemma validation_error_from_form (inp : Inputs) (session : Session) :
  In (st_error "Please fill in all required fields (marked with *)")
     (page_elements (fst (run inp session))) ->
  is_Some (context inp) /\ submitted inp = true /\
  Py.truthy (user_name inp) && Py.truthy (user_phone inp) &&
  Py.truthy (user_email inp) = false.
Proof.
  intros Hin.
  destruct (context inp) as [[[result fault_info] office]|] eqn:Hctx.
  - split; [eauto|].
    rewrite (run_with_form inp session result fault_info office Hctx) in Hin.
    unfold page_elements in Hin. cbn [fst top sidebar col1 col2] in Hin.
    rewrite !all_elements_app, !in_app_iff in Hin.
    destruct Hin as [Hin | [Hin | [Hin | [Hin | [Hin | Hin]]]]].
    + apply validation_free_page_top in Hin. discriminate.
    + apply validation_free_page_sidebar in Hin. discriminate.
    + apply validation_free_page_col1 in Hin. discriminate.
    + apply validation_free_analysis in Hin. discriminate.
    + cbn in Hin. destruct Hin as [Hin | [Hin | [Hin | []]]]; discriminate.
    + rewrite !all_elements_cons, nested_form in Hin. cbn [nested app] in Hin.
      destruct Hin as [Hin | [Hin | [Hin | Hin]]]; try discriminate.
      rewrite app_nil_r, all_elements_app, in_app_iff in Hin.
      destruct Hin as [Hin | Hin].
      * cbn in Hin.
        repeat (destruct Hin as [Hin | Hin]; [discriminate|]). destruct Hin.
      * now apply on_submit_validation in Hin.
  - apply run_without_form_validation in Hin; [discriminate | exact Hctx].
Qed.


(** The lines of the report that carry the label, the confidence and the
    office's phone and email. *)
Lemma report_lines_contents (report : Report.t) (inp : Inputs) (fault_type : string)
    (confidence : float) (fault_info : FaultInfo.t) (office : ServiceOffice.t) :
  let lines := report_lines report inp fault_type confidence fault_info office in
  In ("- Type: " +:+ fault_type) lines /\
  In ("- Confidence: " +:+ Py.percent_1f confidence) lines /\
  In ("- Phone: " +:+ ServiceOffice.phone office) lines /\
  In ("- Email: " +:+ ServiceOffice.email office) lines.
Proof.
  cbv zeta. unfold report_lines.
  repeat split; repeat (try (left; reflexivity); right).
Qed.

(** C2. A successful report assembly (the form is laid out, which takes a
    matched office and a label other than the healthy one, it is
    submitted, and name, phone and email are filled) yields a plain-text
    rendering, shown on the page and stored in the session, that contains
    the predicted label, the confidence as [{confidence*100:.1f}%], and
    the email address and the phone number of the matched office.  For a
    finite confidence the percentage is digits, a point, one digit and the
    percent sign, and the number it spells is [confidence*100] rounded to
    the nearest tenth, to the even tenth on a tie. *)
Theorem report_text_contents
    (inp : Inputs) (session : Session) (result : FaultPrediction)
    (fault_info : FaultInfo.t) (office : ServiceOffice.t) :
  context inp = Some (result, fault_info, office) ->
  submitted inp = true ->
  user_name inp <> "" -> user_phone inp <> "" -> user_email inp <> "" ->
  exists text : string,
    In (st_code text) (page_elements (fst (run inp session))) /\
    snd (run inp session) !! "report_text" = Some (SText text) /\
    Py.contains text (fault_type result) /\
    Py.contains text (Py.percent_1f (confidence result)) /\
    Py.contains text (ServiceOffice.email office) /\
    Py.contains text (ServiceOffice.phone office) /\
    (Py.is_finite (confidence result * 100)%float = true ->
     Py.one_decimal_percent (Py.percent_1f (confidence result))) /\
    (Py.is_finite (confidence result * 100)%float = true ->
     Py.percent_to_one_decimal (confidence result)
       (Py.percent_1f (confidence result))).
Proof.
  intros Hctx Hsubmitted Hname Hphone Hemail.
  assert (Hfilled : Py.truthy (user_name inp) && Py.truthy (user_phone inp) &&
                    Py.truthy (user_email inp) = true)
    by now apply required_fields_filled.
  set (report := make_report (Py.strftime_report (now_report inp)) inp
                   (fault_type result) (confidence result) fault_info office).
  set (text := make_report_text report inp (fault_type result)
                   (confidence result) fault_info office).
  assert (Houtcome :
    on_submit inp session (fault_type result) (confidence result)
              fault_info office =
    ( [ st_success "✅ Report Generated Successfully!";
        st_expander "📄 View Generated Report" [ st_json report ] ]
      ++ contact_office inp (fault_type result) (confidence result)
                        fault_info office
      ++ [ st_markdown "---"; st_markdown "### 📄 Report Summary";
           st_code text ],
      <["report_text" := SText text]>
        (<["fault_report" := SReport report]> session) )).
  { unfold on_submit. now rewrite Hsubmitted, Hfilled. }
  destruct (report_lines_contents report inp (fault_type result)
              (confidence result) fault_info office)
    as (Htype & Hconfidence & Hoffice_phone & Hoffice_email).
  exists text. split_and!.
  - apply (form_child_on_page inp session result fault_info office _ Hctx).
    rewrite Houtcome. cbn [fst]. apply In_all_elements.
    rewrite !in_app_iff. right; right. cbn. tauto.
  - rewrite (run_with_form inp session result fault_info office Hctx).
    cbn [snd]. rewrite Houtcome. cbn [snd]. apply lookup_insert_eq.
  - eapply contains_unlines; [exact Htype|].
    apply contains_append_l, contains_refl.
  - eapply contains_unlines; [exact Hconfidence|].
    apply contains_append_l, contains_refl.
  - eapply contains_unlines; [exact Hoffice_email|].
    apply contains_append_l, contains_refl.
  - eapply contains_unlines; [exact Hoffice_phone|].
    apply contains_append_l, contains_refl.
  - apply percent_1f_one_decimal.
  - apply percent_1f_to_one_decimal.
Qed.

(** Settles what is asked of an element that is written out and is
    neither a description, a record nor a rendering. *)
Ltac neither_kind := split; [reflexivity | split; discriminate].

(** What the office part of lines 155-305 shows, by kind. *)
Lemma office_part_elements (inp : Inputs) (session : Session) (fault_type : string)
    (confidence : float) (fault_info : FaultInfo.t) (e : Element) :
  In e (all_elements
          (fst (office_part inp session fault_type confidence fault_info))) ->
  is_description e = false /\
  (forall r, e = st_json r ->
     exists office,
       r = make_report (Py.strftime_report (now_report inp)) inp fault_type
                       confidence fault_info office) /\
  (forall text, e = st_code text ->
     exists office,
       text = make_report_text
                (make_report (Py.strftime_report (now_report inp)) inp fault_type
                             confidence fault_info office)
                inp fault_type confidence fault_info office).
Proof.
  unfold office_lookup.
  destruct (lookup_wanted inp); [|intros []].
  destruct (Py.truthy (user_pincode inp));
    [|cbn; intros [<- | []]; neither_kind].
  destruct (find_nearest_office (user_pincode inp)) as [office|];
    [|cbn; intros [<- | []]; neither_kind].
  destruct (negb _).
  - unfold fault_report_form.
    destruct (on_submit inp session fault_type confidence fault_info office)
      as [shown session'] eqn:Houtcome.
    cbn [fst]. rewrite all_elements_app, in_app_iff.
    intros [Hin | Hin].
    + cbn in Hin. destruct Hin as [<- | [<- | [<- | []]]];
        neither_kind.
    + rewrite !all_elements_cons, nested_form, all_elements_app in Hin.
      cbn [nested app all_elements flat_map] in Hin.
      destruct Hin as [<- | [<- | [<- | Hin]]];
        try neither_kind.
      rewrite app_nil_r, in_app_iff in Hin. destruct Hin as [Hin | Hin].
      * cbn in Hin.
        repeat (destruct Hin as [<- | Hin];
                [neither_kind|]).
        destruct Hin.
      * pose proof (on_submit_elements inp session fault_type confidence
                      fault_info office e) as Hsubmit.
        rewrite Houtcome in Hsubmit. destruct (Hsubmit Hin) as (Hd & Hj & Hc).
        repeat split; [assumption| |].
        -- intros r Hr. exists office. now apply Hj.
        -- intros text Ht. exists office. now apply Hc.
  - cbn. intros Hin.
    repeat (destruct Hin as [<- | Hin];
            [neither_kind|]).
    destruct Hin.
Qed.

(** The description a run displays and the one it puts into its report
    are read from the knowledge-base entry of the predicted label. *)
Lemma run_describes (inp : Inputs) (session : Session) (image : Image) :
  uploaded_image inp = Some image ->
  let fault_info := get_fault_info (fault_type (predict image model)) in
  describes (fst (run inp session))
    (default "No description available." (FaultInfo.description fault_info))
    (default "" (FaultInfo.description fault_info)).
Proof.
  intros Himage fault_info.
  rewrite (run_uploaded inp session image Himage). cbv zeta.
  fold fault_info.
  set (result := predict image model).
  set (office := office_lookup _ _ _ _ _ _ _).
  unfold describes, page_elements. cbn [fst top sidebar col1 col2].
  assert (Hwhere : forall e,
    In e (all_elements (page_top ++ page_sidebar session (now_sidebar inp) ++
                        page_col1 (uploaded_image inp) ++
                        analysis result fault_info ++ fst office)) ->
    is_description e = true \/ is_report_element e = true ->
    In e (all_elements (analysis result fault_info)) \/
    In e (all_elements (fst office))).
  { intros e. rewrite !all_elements_app, !in_app_iff.
    intros [Hin | [Hin | [Hin | Hin]]] Hkind; [exfalso..|exact Hin].
    - pose proof (description_free_page_top e Hin).
      pose proof (report_free_page_top e Hin). destruct Hkind; congruence.
    - pose proof (description_free_page_sidebar _ _ e Hin).
      pose proof (report_free_page_sidebar _ _ e Hin). destruct Hkind; congruence.
    - pose proof (description_free_page_col1 _ e Hin).
      pose proof (report_free_page_col1 _ e Hin). destruct Hkind; congruence. }
  repeat split.
  - apply In_all_elements. rewrite !in_app_iff. do 3 right. left.
    unfold analysis, fault_details. rewrite !in_app_iff.
    right; left; left. cbn. tauto.
  - intros d Hin. apply Hwhere in Hin; [|now left].
    destruct Hin as [Hin | Hin].
    + apply analysis_elements in Hin as [[= ->] | Hplain];
        [reflexivity | discriminate].
    + apply office_part_elements in Hin as (Hd & _). discriminate.
  - intros report Hin. apply Hwhere in Hin; [|now right].
    destruct Hin as [Hin | Hin].
    + apply report_free_analysis in Hin. discriminate.
    + apply office_part_elements in Hin as (_ & Hj & _).
      destruct (Hj report eq_refl) as (o & ->). reflexivity.
  - intros text Hin. apply Hwhere in Hin; [|now right].
    destruct Hin as [Hin | Hin].
    + apply report_free_analysis in Hin. discriminate.
    + apply office_part_elements in Hin as (_ & _ & Hc).
      destruct (Hc text eq_refl) as (o & ->).
      unfold make_report_text.
      match goal with
      | |- context [Py.unlines ?ls] =>
          exists (firstn 14 ls), (skipn 15 ls)
      end.
      repeat split; reflexivity.
Qed.

(** C3. The fault description is a function of the predicted label.  Two
    runs on two pictures for which [predict] returns the same label
    display the same description, and put the same description into the
    structured record and into the description line of the plain-text
    rendering of every report they build, whatever the pictures and the
    other inputs are. *)
Theorem fault_description_determined_by_label
    (inp1 inp2 : Inputs) (session1 session2 : Session) (image1 image2 : Image) :
  uploaded_image inp1 = Some image1 ->
  uploaded_image inp2 = Some image2 ->
  fault_type (predict image1 model) = fault_type (predict image2 model) ->
  exists shown embedded : string,
    describes (fst (run inp1 session1)) shown embedded /\
    describes (fst (run inp2 session2)) shown embedded.
Proof.
  intros Himage1 Himage2 Hlabel.
  pose proof (run_describes inp1 session1 image1 Himage1) as H1.
  pose proof (run_describes inp2 session2 image2 Himage2) as H2.
  cbv zeta in H1, H2. rewrite <- Hlabel in H2.
  eexists _, _. split; [exact H1 | exact H2].
Qed.

(** A run whose lookup found no office lays out no form. *)
Lemma no_office_no_form (inp : Inputs) :
  lookup inp = Some None -> context inp = None.
Proof.
  unfold form_context. intros ->. now destruct (uploaded_image inp).
Qed.

(** C4. An unmatched pincode is answered, not raised.  In every run whose
    lookup of line 157 returns no office, the right-hand column ends,
    after the analysis and the pincode box, with the one warning box
    (not an error box) that says no office was found: no office details
    follow, no element of the page belongs to a report form or a report,
    and the session is left as it was. *)
Theorem unmatched_pincode_warns (inp : Inputs) (session : Session) :
  lookup inp = Some None ->
  let page := fst (run inp session) in
  (exists image,
     uploaded_image inp = Some image /\
     col2 page =
       analysis (predict image model)
                (get_fault_info (fault_type (predict image model)))
       ++ [ st_warning "No service office found for this pincode. Please contact our main office." ]) /\
  (forall e, In e (page_elements page) -> is_report_element e = false) /\
  snd (run inp session) = session.
Proof.
  intros Hlookup page.
  destruct (run_without_form inp session (no_office_no_form inp Hlookup))
    as (Hsession & Hfree).
  split; [|split; [exact Hfree | exact Hsession]].
  unfold lookup_result in Hlookup.
  destruct (uploaded_image inp) as [image|] eqn:Himage; [|discriminate].
  destruct (lookup_wanted inp && Py.truthy (user_pincode inp)) eqn:Hlooked;
    [|discriminate].
  injection Hlookup as Hoffice.
  apply andb_true_iff in Hlooked as [Hwanted Htyped].
  exists image. split; [reflexivity|]. subst page.
  rewrite (run_uploaded inp session image Himage). cbn [fst col2].
  unfold office_lookup. now rewrite Hwanted, Htyped, Hoffice.
Qed.

(** Line 155 at work: with a picture uploaded, the button not pressed and
    fewer than four characters typed, the office is not looked up and
    nothing follows the pincode box. *)
Lemma short_pincode_not_looked_up (inp : Inputs) (session : Session) (image : Image) :
  uploaded_image inp = Some image ->
  find_office_btn inp = false ->
  Py.len (user_pincode inp) < 4 ->
  lookup inp = None /\
  col2 (fst (run inp session)) =
    analysis (predict image model)
             (get_fault_info (fault_type (predict image model))) /\
  snd (run inp session) = session.
Proof.
  intros Himage Hbutton Hshort.
  assert (Hwanted : lookup_wanted inp = false).
  { unfold lookup_wanted. rewrite Hbutton.
    destruct (Z.leb_spec 4 (Py.len (user_pincode inp))); [lia|].
    now rewrite andb_false_r. }
  split; [unfold lookup_result; now rewrite Himage, Hwanted|].
  rewrite (run_uploaded inp session image Himage). cbn [fst snd col2].
  unfold office_lookup. rewrite Hwanted. cbn [fst snd].
  now rewrite app_nil_r.
Qed.

(** The headline of the detection result: its kind and its text. *)
Lemma detection_result_status (fault_type : string) (confidence : float)
    (fault_info : FaultInfo.t) :
  status_of (detection_result fault_type confidence fault_info) =
  Some (kind_by_severity fault_type (FaultInfo.severity fault_info),
        "**" +:+ fault_type +:+ "** (Confidence: " +:+
        Py.percent_1f confidence +:+ ")").
Proof.
  unfold detection_result, kind_by_severity, get_eq.
  destruct (String.eqb fault_type "Healthy Panel"); [reflexivity|].
  destruct (FaultInfo.severity fault_info) as [severity|]; [|reflexivity].
  destruct (String.eqb_spec severity "High") as [-> | Hhigh]; [reflexivity|].
  destruct (String.eqb_spec severity "Medium") as [-> | Hmedium]; [reflexivity|].
  cbn [status_of].
  repeat match goal with
  | |- context [match ?s with EmptyString => _ | String _ _ => _ end] =>
      destruct s as [|? ?]; try reflexivity; try congruence
  | |- context [match ?a with Ascii _ _ _ _ _ _ _ _ => _ end] =>
      destruct a as [[] [] [] [] [] [] [] []]; try reflexivity; try congruence
  end.
Qed.

(** C8, as the script has it.  In every run on an uploaded picture the
    headline of the detection result is a status box whose text shows the
    predicted label and the confidence as [{confidence*100:.1f}%], which
    for a finite confidence spells [confidence*100] rounded to the nearest
    tenth (to the even tenth on a tie) with one decimal place; the kind of
    box, that is its colour, is read from the label and the severity the
    knowledge base records for it, and is the same whatever the confidence
    is. *)
Theorem confidence_shown_colour_by_severity
    (inp : Inputs) (session : Session) (image : Image) :
  uploaded_image inp = Some image ->
  let result := predict image model in
  let fault_info := get_fault_info (fault_type result) in
  exists headline text,
    In headline (col2 (fst (run inp session))) /\
    status_of headline =
      Some (kind_by_severity (fault_type result) (FaultInfo.severity fault_info),
            text) /\
    Py.contains text (fault_type result) /\
    Py.contains text (Py.percent_1f (confidence result)) /\
    (Py.is_finite (confidence result * 100)%float = true ->
     Py.percent_to_one_decimal (confidence result)
       (Py.percent_1f (confidence result))) /\
    forall other : float,
      fst <$> status_of (detection_result (fault_type result) other fault_info) =
      fst <$> status_of headline.
Proof.
  intros Himage result fault_info.
  exists (detection_result (fault_type result) (confidence result) fault_info).
  eexists. split; [|split; [apply detection_result_status|]].
  - rewrite (run_uploaded inp session image Himage). cbn [fst col2].
    unfold analysis. rewrite !in_app_iff. left. cbn. tauto.
  - split; [|split; [|split]].
    + apply contains_append_l, contains_append_r, contains_refl.
    + do 3 apply contains_append_l. apply contains_append_r, contains_refl.
    + apply percent_1f_to_one_decimal.
    + intros other. now rewrite !detection_result_status.
Qed.

(** C9. A healthy prediction never leads to a report.  In every run whose
    predicted label is the healthy one, no element of the page belongs to
    the report form or to a report, the session is left as it was, and
    what follows the pincode box is nothing, the request for a pincode,
    the no-office warning, or the details of the office found: the form,
    the assembly and the links to the office are not there. *)
Theorem healthy_panel_never_reported
    (inp : Inputs) (session : Session) (image : Image) :
  uploaded_image inp = Some image ->
  fault_type (predict image model) = "Healthy Panel" ->
  let page := fst (run inp session) in
  (forall e, In e (page_elements page) -> is_report_element e = false) /\
  snd (run inp session) = session /\
  exists shown,
    col2 page =
      analysis (predict image model)
               (get_fault_info (fault_type (predict image model))) ++ shown /\
    (shown = [] \/
     shown = [ st_info "Please enter a pincode to find the nearest service office." ] \/
     shown = [ st_warning "No service office found for this pincode. Please contact our main office." ] \/
     exists office,
       find_nearest_office (user_pincode inp) = Some office /\
       shown = office_shown office).
Proof.
  intros Himage Hhealthy page.
  assert (Hctx : context inp = None).
  { unfold form_context. rewrite Himage, Hhealthy.
    destruct (lookup inp) as [[office|]|]; reflexivity. }
  destruct (run_without_form inp session Hctx) as (Hsession & Hfree).
  split; [exact Hfree|]. split; [exact Hsession|].
  subst page. rewrite (run_uploaded inp session image Himage). cbn [fst col2].
  eexists. split; [reflexivity|].
  unfold office_lookup. rewrite Hhealthy.
  destruct (lookup_wanted inp); [|now left].
  destruct (Py.truthy (user_pincode inp)); [|right; now left].
  destruct (find_nearest_office (user_pincode inp)) as [office|];
    [|right; right; now left].
  right; right; right. exists office. split; reflexivity.
Qed.

(** A run either builds no report and leaves the session alone, or shows
    the rendering of the report it builds and stores the record and the
    rendering under the two keys. *)
Lemma run_step (inp : Inputs) (session : Session) :
  (report_shown (fst (run inp session)) = None /\
   snd (run inp session) = session) \/
  exists report text,
    report_shown (fst (run inp session)) = Some text /\
    snd (run inp session) =
      <["report_text" := SText text]>
        (<["fault_report" := SReport report]> session).
Proof.
  destruct (context inp) as [[[result fault_info] office]|] eqn:Hctx.
  - rewrite (run_with_form inp session result fault_info office Hctx).
    unfold report_shown. cbn [fst snd col2].
    rewrite !all_elements_app, !omap_app.
    rewrite (no_code_text _ (report_free_analysis result fault_info)).
    rewrite !all_elements_cons, nested_form, all_elements_app, omap_app.
    cbn [nested app omap list_omap code_text all_elements flat_map].
    rewrite !app_nil_r.
    unfold on_submit. destruct (submitted inp); [|left; now split].
    destruct (Py.truthy (user_name inp) && Py.truthy (user_phone inp) &&
              Py.truthy (user_email inp)); [|left; now split].
    right. eexists _, _. split; reflexivity.
  - destruct (run_without_form inp session Hctx) as (Hsession & Hfree).
    left. split; [|exact Hsession].
    unfold report_shown. rewrite no_code_text; [reflexivity|].
    intros e Hin. apply Hfree.
    rewrite !all_elements_app, !in_app_iff. tauto.
Qed.

(** What the session holds under the two keys follows the report built
    last, through any sequence of runs. *)
Lemma run_all_session (runs : list Inputs) :
  forall (session : Session) (earlier : option string),
    session !! "report_text" = SText <$> earlier ->
    (is_Some (session !! "fault_report") <-> is_Some earlier) ->
    let latest :=
      match last_report_text (fst (history session runs)) with
      | Some text => Some text
      | None => earlier
      end in
    snd (history session runs) !! "report_text" = SText <$> latest /\
    (is_Some (snd (history session runs) !! "fault_report") <-> is_Some latest).
Proof.
  induction runs as [|inp runs IH]; intros session earlier Htext Hreport;
    [now split|].
  cbn [run_all].
  destruct (run_step inp session) as [(Hshown & Hsame) | (report & text & Hshown & Hstored)];
    destruct (run inp session) as [page session1]; cbn [fst snd] in *;
    destruct (history session1 runs) as [pages session2] eqn:Hrest;
    cbn [fst snd]; unfold last_report_text; cbn [omap list_omap];
    rewrite Hshown; fold (omap (M:=list) report_shown pages);
    fold (last_report_text pages).
  - subst session1. specialize (IH session earlier Htext Hreport).
    now rewrite Hrest in IH.
  - assert (Htext1 : session1 !! "report_text" = SText <$> Some text).
    { subst session1. apply lookup_insert_eq. }
    assert (Hreport1 : is_Some (session1 !! "fault_report") <-> is_Some (Some text)).
    { subst session1. rewrite lookup_insert_ne by discriminate.
      rewrite lookup_insert_eq. split; eauto. }
    specialize (IH session1 (Some text) Htext1 Hreport1).
    rewrite Hrest in IH. cbn [fst snd] in IH.
    rewrite last_cons. unfold last_report_text in IH.
    now destruct (last (omap report_shown pages)).
Qed.


End AppProperties.

(** ** The order of floats *)

(** Case analysis on the comparisons of exponents and mantissas. *)
Ltac compare_cases :=
  repeat match goal with
  | |- context [Pos.compare_cont Eq ?a ?b] =>
      change (Pos.compare_cont Eq a b) with (Pos.compare a b)
  | H : context [Pos.compare_cont Eq ?a ?b] |- _ =>
      change (Pos.compare_cont Eq a b) with (Pos.compare a b) in H
  | |- context [Z.compare ?a ?b] => destruct (Z.compare_spec a b)
  | H : context [Z.compare ?a ?b] |- _ => destruct (Z.compare_spec a b)
  | |- context [Pos.compare ?a ?b] => destruct (Pos.compare_spec a b)
  | H : context [Pos.compare ?a ?b] |- _ => destruct (Pos.compare_spec a b)
  end.

(** Settles a fact about [SFcompare] by cases on the three kinds of
    number and their signs. *)
Ltac compare_floats :=
  unfold SFltb, SFleb, SFcompare;
  repeat match goal with f : spec_float |- _ => destruct f end;
  repeat match goal with s : bool |- _ => destruct s end;
  cbn; intros; try discriminate; try reflexivity;
  compare_cases; cbn in *; try discriminate; try reflexivity; try lia.

Lemma SFleb_ltb_trans (y v x : spec_float) :
  SFleb y v = true -> SFltb v x = true -> SFltb y x = true.
Proof. revert y v x. intros y v x. compare_floats. Qed.

Lemma SFltb_leb (y x : spec_float) : SFltb y x = true -> SFleb y x = true.
Proof. compare_floats. Qed.

Lemma SFleb_refl (x : spec_float) : Predict.SF_is_nan x = false -> SFleb x x = true.
Proof. compare_floats. Qed.

Lemma SFleb_of_not_ltb (x v : spec_float) :
  Predict.SF_is_nan x = false -> Predict.SF_is_nan v = false ->
  SFltb v x = false -> SFleb x v = true.
Proof. compare_floats. Qed.

Lemma is_nan_spec (x : float) :
  PrimFloat.is_nan x = false -> Predict.SF_is_nan (Prim2SF x) = false.
Proof.
  unfold PrimFloat.is_nan. rewrite FloatAxioms.eqb_spec.
  destruct (Prim2SF x); try reflexivity. discriminate.
Qed.

Lemma leb_ltb_trans (y v x : float) :
  (y <=? v)%float = true -> (v <? x)%float = true -> (y <? x)%float = true.
Proof. rewrite FloatAxioms.leb_spec, !FloatAxioms.ltb_spec. apply SFleb_ltb_trans. Qed.

Lemma ltb_leb (y x : float) : (y <? x)%float = true -> (y <=? x)%float = true.
Proof. rewrite FloatAxioms.leb_spec, FloatAxioms.ltb_spec. apply SFltb_leb. Qed.

Lemma leb_refl (x : float) :
  PrimFloat.is_nan x = false -> (x <=? x)%float = true.
Proof. intros Hx%is_nan_spec. rewrite FloatAxioms.leb_spec. now apply SFleb_refl. Qed.

Lemma leb_of_not_ltb (x v : float) :
  PrimFloat.is_nan x = false -> PrimFloat.is_nan v = false ->
  (v <? x)%float = false -> (x <=? v)%float = true.
Proof.
  intros Hx%is_nan_spec Hv%is_nan_spec. rewrite FloatAxioms.leb_spec, FloatAxioms.ltb_spec.
  now apply SFleb_of_not_ltb.
Qed.

(** ** The predicted label *)

Lemma all_numbers_app (xs ys : list float) :
  Predict.all_numbers (xs ++ ys) = true <->
  Predict.all_numbers xs = true /\ Predict.all_numbers ys = true.
Proof. unfold Predict.all_numbers. rewrite forallb_app. apply andb_true_iff. Qed.

Lemma all_numbers_lookup (xs : list float) (j : nat) (x : float) :
  Predict.all_numbers xs = true -> xs !! j = Some x -> PrimFloat.is_nan x = false.
Proof.
  unfold Predict.all_numbers. rewrite forallb_forall. intros Hall Hj.
  apply negb_true_iff, Hall. apply list_elem_of_In.
  eapply list_elem_of_lookup_2, Hj.
Qed.

(** One step of the scan keeps the first largest entry seen so far. *)
Lemma first_max_step (seen : list float) (best : nat) (v x : float) :
  Predict.all_numbers (seen ++ [x]) = true ->
  Predict.is_first_max seen best v ->
  if (v <? x)%float
  then Predict.is_first_max (seen ++ [x]) (length seen) x
  else Predict.is_first_max (seen ++ [x]) best v.
Proof.
  intros Hnum (Hbest & Hle & Hlt).
  assert (Hx : PrimFloat.is_nan x = false).
  { eapply all_numbers_lookup; [exact Hnum|].
    apply list_lookup_middle. reflexivity. }
  assert (Hv : PrimFloat.is_nan v = false).
  { eapply all_numbers_lookup; [exact Hnum|].
    apply lookup_app_l_Some, Hbest. }
  destruct (v <? x)%float eqn:Hcmp; repeat split.
  - apply list_lookup_middle. reflexivity.
  - intros j y Hj. apply lookup_app_Some in Hj as [Hj | (_ & Hj)].
    + apply ltb_leb. eapply leb_ltb_trans; [eapply Hle, Hj | exact Hcmp].
    + apply list_lookup_singleton_Some in Hj as (_ & <-). now apply leb_refl.
  - intros j y Hj Hearlier. apply lookup_app_Some in Hj as [Hj | (Hge & _)]; [|lia].
    eapply leb_ltb_trans; [eapply Hle, Hj | exact Hcmp].
  - apply lookup_app_l_Some, Hbest.
  - intros j y Hj. apply lookup_app_Some in Hj as [Hj | (_ & Hj)].
    + eapply Hle, Hj.
    + apply list_lookup_singleton_Some in Hj as (_ & <-).
      now apply leb_of_not_ltb.
  - intros j y Hj Hearlier. apply lookup_app_Some in Hj as [Hj | (Hge & _)].
    + eapply Hlt; eassumption.
    + apply lookup_lt_Some in Hbest. lia.
Qed.

(** The scan ends on the first largest entry of the whole list. *)
Lemma argmax_from_first_max (xs : list float) :
  forall (seen : list float) (best : nat) (v : float),
    Predict.all_numbers (seen ++ xs) = true ->
    Predict.is_first_max seen best v ->
    exists v',
      Predict.is_first_max (seen ++ xs)
        (Predict.argmax_from best v (length seen) xs) v'.
Proof.
  induction xs as [|x xs IH]; intros seen best v Hnum Hmax.
  - exists v. now rewrite app_nil_r.
  - cbn [Predict.argmax_from].
    replace (seen ++ x :: xs) with ((seen ++ [x]) ++ xs) in *
      by now rewrite <- app_assoc.
    assert (Hstep := first_max_step seen best v x
                       (proj1 (proj1 (all_numbers_app _ _) Hnum)) Hmax).
    replace (S (length seen)) with (length (seen ++ [x]))
      by (rewrite length_app; cbn; lia).
    destruct (v <? x)%float; now apply IH.
Qed.

Lemma argmax_first_max (xs : list float) :
  xs <> [] -> Predict.all_numbers xs = true ->
  exists v, Predict.is_first_max xs (Predict.argmax xs) v.
Proof.
  destruct xs as [|x xs]; [congruence|]. intros _ Hnum.
  apply (argmax_from_first_max xs [x] 0%nat x Hnum).
  repeat split.
  - intros [|j] y [= <-]. apply leb_refl.
    eapply all_numbers_lookup with (j := 0%nat); [exact Hnum | reflexivity].
  - intros j y _ Hj. lia.
Qed.

Section PredictProperties.

Variable Model : Type.
Variable CLASS_NAMES : list string.
Variable forward : Model -> Image -> list float.
Variable softmax : list float -> list float.

Local Abbreviation predict := (Predict.predict Model CLASS_NAMES forward softmax).

(** C5. The predicted label is the argmax of the returned distribution,
    the first-declared label winning a tie.  When the network yields one
    number per declared label, none of them a NaN, the distribution
    [predict] returns holds the predicted label with the returned
    confidence at some position; no label has a larger probability, and
    every label declared before it has a strictly smaller one. *)
Theorem predicted_label_is_first_argmax (image : Image) (model : Model) :
  let probs := softmax (forward model image) in
  probs <> [] ->
  length CLASS_NAMES = length probs ->
  Predict.all_numbers probs = true ->
  let result := predict image model in
  exists k : nat,
    CLASS_NAMES !! k = Some (fault_type result) /\
    probabilities result !! k = Some (fault_type result, confidence result) /\
    forall (j : nat) (label : string) (p : float),
      probabilities result !! j = Some (label, p) ->
      (p <=? confidence result)%float = true /\
      ((j < k)%nat -> (p <? confidence result)%float = true).
Proof.
  intros probs Hnonempty Hlength Hnum result.
  destruct (argmax_first_max probs Hnonempty Hnum) as (v & Hk & Hle & Hlt).
  set (k := Predict.argmax probs) in *.
  assert (Hname : exists name, CLASS_NAMES !! k = Some name).
  { apply lookup_lt_is_Some. rewrite Hlength. eapply lookup_lt_Some, Hk. }
  destruct Hname as [name Hname].
  assert (Hlabel : fault_type result = name).
  { subst result. unfold Predict.predict. cbn [fault_type]. fold probs. fold k.
    now rewrite nth_lookup, Hname. }
  assert (Hconfidence : confidence result = v).
  { subst result. unfold Predict.predict. cbn [confidence]. fold probs. fold k.
    now rewrite nth_lookup, Hk. }
  assert (Hdistribution : probabilities result = zip CLASS_NAMES probs) by reflexivity.
  rewrite Hlabel, Hconfidence, Hdistribution. exists k.
  split; [exact Hname|]. split; [apply lookup_zip_with_Some; eauto|].
  intros j label p Hentry.
  apply lookup_zip_with_Some in Hentry as (l & p' & [= -> ->] & _ & Hj).
  split; [eapply Hle, Hj|].
  intros Hearlier. eapply Hlt; eassumption.
Qed.

End PredictProperties.

(** ** The office of a pincode *)

Lemma prefix_append (key code : string) :
  String.prefix key code = true <-> exists rest, code = key +:+ rest.
Proof.
  revert code. induction key as [|a key IH]; intros [|b code];
    cbn [String.prefix].
  - split; [exists ""; reflexivity | reflexivity].
  - split; [eexists; reflexivity | reflexivity].
  - split; [discriminate | intros [rest [=]]].
  - destruct (ascii_dec a b) as [-> | Hne].
    + rewrite IH. split; intros [rest Hrest]; exists rest.
      * now rewrite append_cons, <- Hrest.
      * rewrite append_cons in Hrest. now injection Hrest.
    + split; [discriminate|]. intros [rest Hrest].
      rewrite append_cons in Hrest. injection Hrest as -> _. congruence.
Qed.

(** A prefix of the part two codes share is a prefix of both. *)
Lemma prefix_of_shared (key shared rest : string) :
  String.prefix key shared = true -> String.prefix key (shared +:+ rest) = true.
Proof.
  rewrite !prefix_append. intros [more ->]. exists (more +:+ rest).
  apply append_assoc.
Qed.

Lemma matching_In (table : list (string * ServiceOffice.t)) (code : string)
    (entry : string * ServiceOffice.t) :
  In entry (OfficeLocator.matching table code) <->
  In entry table /\ String.prefix (fst entry) code = true.
Proof.
  unfold OfficeLocator.matching.
  rewrite <- !list_elem_of_In, list_elem_of_filter. tauto.
Qed.

(** Codes that the keys of the table do not tell apart have the same
    matching entries. *)
Lemma matching_same (table : list (string * ServiceOffice.t)) (code1 code2 : string) :
  (forall entry, In entry table ->
     String.prefix (fst entry) code1 = String.prefix (fst entry) code2) ->
  OfficeLocator.matching table code1 = OfficeLocator.matching table code2.
Proof.
  unfold OfficeLocator.matching.
  induction table as [|entry table IH]; intros Hsame; [reflexivity|].
  rewrite !filter_cons, (Hsame entry (or_introl eq_refl)).
  rewrite IH by (intros e He; apply Hsame; now right).
  destruct (decide (String.prefix (fst entry) code2 = true)); reflexivity.
Qed.

(** The selection keeps an entry that is among the candidates and has a
    key at least as long as every other. *)
Lemma most_specific_spec (entries : list (string * ServiceOffice.t)) :
  forall best : option (string * ServiceOffice.t),
    match OfficeLocator.most_specific best entries with
    | Some chosen =>
        (best = Some chosen \/ In chosen entries) /\
        (forall b, best = Some b ->
           (String.length (fst b) <= String.length (fst chosen))%nat) /\
        (forall e, In e entries ->
           (String.length (fst e) <= String.length (fst chosen))%nat)
    | None => best = None /\ entries = []
    end.
Proof.
  induction entries as [|entry entries IH]; intros best.
  - cbn. destruct best as [b|]; [|now split].
    split; [now left|]. split; [now intros ? [= <-] | intros ? []].
  - cbn [OfficeLocator.most_specific].
    destruct best as [b|];
      [destruct (String.length (fst b) <? String.length (fst entry))%nat eqn:Hlonger|].
    + apply Nat.ltb_lt in Hlonger. specialize (IH (Some entry)).
      destruct (OfficeLocator.most_specific (Some entry) entries) as [chosen|];
        [|destruct IH; discriminate].
      destruct IH as (Hin & Hbest & Hall).
      specialize (Hbest entry eq_refl).
      split; [right; destruct Hin as [[= <-] | Hin]; [now left | now right]|].
      split; [intros ? [= <-]; lia|].
      intros e [<- | He]; [exact Hbest | now apply Hall].
    + apply Nat.ltb_ge in Hlonger. specialize (IH (Some b)).
      destruct (OfficeLocator.most_specific (Some b) entries) as [chosen|];
        [|destruct IH; discriminate].
      destruct IH as (Hin & Hbest & Hall).
      specialize (Hbest b eq_refl).
      split; [destruct Hin as [Hin | Hin]; [now left | right; now right]|].
      split; [intros ? [= <-]; lia|].
      intros e [<- | He]; [lia | now apply Hall].
    + specialize (IH (Some entry)).
      destruct (OfficeLocator.most_specific (Some entry) entries) as [chosen|];
        [|destruct IH; discriminate].
      destruct IH as (Hin & Hbest & Hall).
      specialize (Hbest entry eq_refl).
      split; [right; destruct Hin as [[= <-] | Hin]; [now left | now right]|].
      split; [discriminate|].
      intros e [<- | He]; [exact Hbest | now apply Hall].
Qed.

(** A table with a key longer than the prefix two codes share tells them
    apart, and a table with the key [0] has an office for "000000". *)
Example keys_beyond_the_shared_prefix :
  OfficeLocator.find_nearest_office
    [ ("1100", Sample.delhi); ("110001", Sample.mumbai) ] "110001" <>
  OfficeLocator.find_nearest_office
    [ ("1100", Sample.delhi); ("110001", Sample.mumbai) ] "110099" /\
  OfficeLocator.find_nearest_office [ ("0", Sample.delhi) ] "000000" =
  Some Sample.delhi.
Proof. split; [vm_compute; discriminate | reflexivity]. Qed.

(** C7. [find_nearest_office] resolves a pincode by longest-prefix match,
    whatever the table: an office returned stands in the table under a
    key that is a prefix of the normalised code, and no key that is a
    prefix of it is longer; nothing is returned exactly when no key is a
    prefix; two codes that no key of the table tells apart get the same
    answer.  So "110001" and "110099" get the same answer on a table keyed
    on the prefix they share (every key that is a prefix of either is a
    prefix of "1100"), and "000000" gets none exactly on the tables none
    of whose keys is a prefix of it. *)
Theorem find_nearest_office_longest_prefix
    (OFFICES : list (string * ServiceOffice.t)) :
  (forall code office,
     OfficeLocator.find_nearest_office OFFICES code = Some office ->
     exists key,
       In (key, office) OFFICES /\
       String.prefix key (OfficeLocator.normalize code) = true /\
       forall key' office',
         In (key', office') OFFICES ->
         String.prefix key' (OfficeLocator.normalize code) = true ->
         (String.length key' <= String.length key)%nat) /\
  (forall code,
     OfficeLocator.find_nearest_office OFFICES code = None <->
     forall key office,
       In (key, office) OFFICES ->
       String.prefix key (OfficeLocator.normalize code) = false) /\
  (forall code1 code2,
     (forall key office,
        In (key, office) OFFICES ->
        String.prefix key (OfficeLocator.normalize code1) =
        String.prefix key (OfficeLocator.normalize code2)) ->
     OfficeLocator.find_nearest_office OFFICES code1 =
     OfficeLocator.find_nearest_office OFFICES code2) /\
  ((forall key office,
      In (key, office) OFFICES ->
      String.prefix key "110001" || String.prefix key "110099" = true ->
      String.prefix key "1100" = true) ->
   OfficeLocator.find_nearest_office OFFICES "110001" =
   OfficeLocator.find_nearest_office OFFICES "110099") /\
  (OfficeLocator.find_nearest_office OFFICES "000000" = None <->
   forall key office,
     In (key, office) OFFICES -> String.prefix key "000000" = false).
Proof.
  assert (Habsent : forall code,
    OfficeLocator.find_nearest_office OFFICES code = None <->
    forall key office,
      In (key, office) OFFICES ->
      String.prefix key (OfficeLocator.normalize code) = false).
  { intros code. unfold OfficeLocator.find_nearest_office.
    pose proof (most_specific_spec
                  (OfficeLocator.matching OFFICES (OfficeLocator.normalize code))
                  None) as Hspec.
    destruct (OfficeLocator.most_specific None _) as [[key office]|].
    - destruct Hspec as ([[=] | Hin] & _). apply matching_In in Hin as (Hin & Hpre).
      cbn [fst] in Hpre. split; [discriminate|]. intros Hno.
      rewrite (Hno key office Hin) in Hpre. discriminate.
    - destruct Hspec as (_ & Hempty). split; [|reflexivity]. intros _ key office Hin.
      destruct (String.prefix key (OfficeLocator.normalize code)) eqn:Hpre;
        [|reflexivity].
      assert (Hmatch : In (key, office)
                (OfficeLocator.matching OFFICES (OfficeLocator.normalize code)))
        by now apply matching_In.
      rewrite Hempty in Hmatch. destruct Hmatch. }
  assert (Hsame : forall code1 code2,
    (forall key office,
       In (key, office) OFFICES ->
       String.prefix key (OfficeLocator.normalize code1) =
       String.prefix key (OfficeLocator.normalize code2)) ->
    OfficeLocator.find_nearest_office OFFICES code1 =
    OfficeLocator.find_nearest_office OFFICES code2).
  { intros code1 code2 Halike. unfold OfficeLocator.find_nearest_office.
    rewrite (matching_same OFFICES (OfficeLocator.normalize code1)
                           (OfficeLocator.normalize code2)); [reflexivity|].
    intros [key office] Hin. exact (Halike key office Hin). }
  split; [|split; [exact Habsent | split; [exact Hsame | split]]].
  - intros code office. unfold OfficeLocator.find_nearest_office.
    pose proof (most_specific_spec
                  (OfficeLocator.matching OFFICES (OfficeLocator.normalize code))
                  None) as Hspec.
    destruct (OfficeLocator.most_specific None _) as [[key office0]|];
      [|discriminate].
    intros [= <-]. destruct Hspec as ([[=] | Hin] & _ & Hall).
    apply matching_In in Hin as (Hin & Hpre). cbn [fst] in Hpre. exists key.
    split; [exact Hin|]. split; [exact Hpre|].
    intros key' office' Hin' Hpre'.
    apply (Hall (key', office')). now apply matching_In.
  - intros Hshared. apply Hsame.
    change (OfficeLocator.normalize "110001") with "110001".
    change (OfficeLocator.normalize "110099") with "110099".
    intros key office Hin.
    destruct (String.prefix key "110001") eqn:H1;
      destruct (String.prefix key "110099") eqn:H2; try reflexivity.
    + assert (Hkey : String.prefix key "1100" = true)
        by (apply (Hshared key office Hin); now rewrite H1).
      apply (prefix_of_shared key "1100" "99") in Hkey.
      change ("1100" +:+ "99") with "110099" in Hkey. congruence.
    + assert (Hkey : String.prefix key "1100" = true)
        by (apply (Hshared key office Hin); now rewrite H1, H2).
      apply (prefix_of_shared key "1100" "01") in Hkey.
      change ("1100" +:+ "01") with "110001" in Hkey. congruence.
  - exact (Habsent "000000").
Qed.

(** ** The page on the sample installation *)



(** A visitor in Delhi with a faint picture, read as hot spots at a
    confidence of 7/16, fills the form in: the report names the fault, the
    confidence, which is 43.75 per cent and is written 43.8%, and the
    Delhi office. *)
Lemma report_text_contents_witness :
  exists text : string,
    snd (Sample.app (Sample.visit Sample.faint "110001" "Asha" true) ∅)
      !! "report_text" = Some (SText text) /\
    Py.contains text "Hot Spots" /\
    Py.contains text "43.8%" /\
    Py.percent_to_one_decimal 0.4375 "43.8%" /\
    Py.contains text "delhi@solarservice.example" /\
    Py.contains text "+91-11-5550100".
Proof.
  destruct (report_text_contents
              unit tt Sample.predict Sample.get_fault_info
              Sample.find_nearest_office OfficeLocator.format_contact_info
              (Sample.visit Sample.faint "110001" "Asha" true) ∅
              (Sample.predict Sample.faint tt)
              (Sample.get_fault_info "Hot Spots") Sample.delhi)
    as (text & _ & Hstored & Hlabel & Hconfidence & Hemail & Hphone & _ & Hrounded).
  - vm_compute. reflexivity.
  - reflexivity.
  - discriminate.
  - discriminate.
  - discriminate.
  - exists text. split; [exact Hstored|]. split; [exact Hlabel|].
    split; [exact Hconfidence|]. split; [|split; assumption].
    exact (Hrounded eq_refl).
Defined.

(** Two different pictures read as hot spots are described alike. *)
Lemma fault_description_determined_by_label_witness :
  exists shown embedded : string,
    describes
      (fst (Sample.app (Sample.visit Sample.picture "110001" "Asha" true) ∅))
      shown embedded /\
    describes
      (fst (Sample.app (Sample.visit Sample.other_picture "400001" "Ravi" false) ∅))
      shown embedded.
Proof.
  apply (fault_description_determined_by_label
           unit tt Sample.predict Sample.get_fault_info
           Sample.find_nearest_office OfficeLocator.format_contact_info
           (Sample.visit Sample.picture "110001" "Asha" true)
           (Sample.visit Sample.other_picture "400001" "Ravi" false)
           ∅ ∅ Sample.picture Sample.other_picture).
  - reflexivity.
  - reflexivity.
  - vm_compute. reflexivity.
Defined.

(** A pincode no office serves ends the page with the warning. *)
Lemma unmatched_pincode_warns_witness :
  snd (Sample.app (Sample.visit Sample.picture "000000" "Asha" true) ∅) = ∅.
Proof.
  destruct (unmatched_pincode_warns
              unit tt Sample.predict Sample.get_fault_info
              Sample.find_nearest_office OfficeLocator.format_contact_info
              (Sample.visit Sample.picture "000000" "Asha" true) ∅)
    as (_ & _ & Hsession).
  - vm_compute. reflexivity.
  - exact Hsession.
Defined.

(** The sample network's answer to a picture: hot spots, first among the
    labels of largest probability. *)
Lemma predicted_label_is_first_argmax_witness :
  exists k : nat,
    Sample.CLASS_NAMES !! k = Some (fault_type (Sample.predict Sample.picture tt)) /\
    probabilities (Sample.predict Sample.picture tt) !! k =
      Some (fault_type (Sample.predict Sample.picture tt),
            confidence (Sample.predict Sample.picture tt)) /\
    forall (j : nat) (label : string) (p : float),
      probabilities (Sample.predict Sample.picture tt) !! j = Some (label, p) ->
      (p <=? confidence (Sample.predict Sample.picture tt))%float = true /\
      ((j < k)%nat ->
       (p <? confidence (Sample.predict Sample.picture tt))%float = true).
Proof.
  apply (predicted_label_is_first_argmax
           unit Sample.CLASS_NAMES Sample.forward Sample.softmax
           Sample.picture tt).
  - vm_compute. discriminate.
  - reflexivity.
  - vm_compute. reflexivity.
Defined.

(** The two sample offices are keyed on three digits: the two Delhi codes
    get the same office and the code of nowhere gets none. *)
Lemma find_nearest_office_longest_prefix_witness :
  Sample.find_nearest_office "110001" = Sample.find_nearest_office "110099" /\
  Sample.find_nearest_office "000000" = None.
Proof.
  destruct (find_nearest_office_longest_prefix Sample.OFFICES)
    as (_ & _ & _ & Hsame & Habsent).
  split.
  - apply Hsame.
    intros key office [[= <- <-] | [[= <- <-] | []]]; vm_compute; auto.
  - apply Habsent.
    intros key office [[= <- <-] | [[= <- <-] | []]]; vm_compute; reflexivity.
Defined.

(** The headline for a faint picture, read as hot spots at a confidence
    of 7/16, is a red box, hot spots being of high severity in the sample
    knowledge base, and shows 43.8%. *)
Lemma confidence_shown_colour_by_severity_witness :
  exists headline text,
    In headline
       (col2 (fst (Sample.app (Sample.visit Sample.faint "" "" false) ∅))) /\
    status_of headline = Some (Error, text) /\
    Py.contains text "43.8%" /\
    Py.percent_to_one_decimal 0.4375 "43.8%".
Proof.
  destruct (confidence_shown_colour_by_severity
              unit tt Sample.predict Sample.get_fault_info
              Sample.find_nearest_office OfficeLocator.format_contact_info
              (Sample.visit Sample.faint "" "" false) ∅ Sample.faint)
    as (headline & text & Hin & Hstatus & _ & Hconfidence & Hrounded & _).
  - reflexivity.
  - exists headline, text. split; [exact Hin|]. split; [exact Hstatus|].
    split; [exact Hconfidence | exact (Hrounded eq_refl)].
Defined.

(** A blank picture is read as healthy: nothing is stored. *)
Lemma healthy_panel_never_reported_witness :
  snd (Sample.app (Sample.visit Sample.blank "110001" "Asha" true) ∅) = ∅.
Proof.
  destruct (healthy_panel_never_reported
              unit tt Sample.predict Sample.get_fault_info
              Sample.find_nearest_office OfficeLocator.format_contact_info
              (Sample.visit Sample.blank "110001" "Asha" true) ∅ Sample.blank)
    as (_ & Hsession & _).
  - reflexivity.
  - vm_compute. reflexivity.
  - exact Hsession.
Defined.


(** C8, as the specification words it, does not hold: there the
    confidence is used to colour the result.  A hot-spot reading of high
    severity is shown in a red box at a confidence of 63/64 and at a
    confidence of 1/64 alike, and no label, knowledge-base entry and pair
    of confidences give boxes of two kinds. *)
Lemma colour_not_chosen_by_confidence :
  (fst <$> status_of (detection_result "Hot Spots" 0.984375
                        (Sample.get_fault_info "Hot Spots")) = Some Error /\
   fst <$> status_of (detection_result "Hot Spots" 0.015625
                        (Sample.get_fault_info "Hot Spots")) = Some Error) /\
  ~ (exists (fault_type : string) (fault_info : FaultInfo.t) (c1 c2 : float),
       fst <$> status_of (detection_result fault_type c1 fault_info) <>
       fst <$> status_of (detection_result fault_type c2 fault_info)).
Proof.
  split.
  - split; vm_compute; reflexivity.
  - intros (fault_type & fault_info & c1 & c2 & Hdiffer). apply Hdiffer.
    now rewrite !detection_result_status.
Qed.

(** * More of the script *)

(** ** The list of all predictions *)

Lemma SFleb_trans (x y z : spec_float) :
  SFleb x y = true -> SFleb y z = true -> SFleb x z = true.
Proof. compare_floats. Qed.

Lemma SFltb_above_equal (x y v : spec_float) :
  SFltb x y = true -> SFeqb x v = true -> SFeqb y v = false.
Proof. unfold SFeqb. compare_floats. Qed.

Lemma leb_trans (x y z : float) :
  (x <=? y)%float = true -> (y <=? z)%float = true -> (x <=? z)%float = true.
Proof. rewrite !FloatAxioms.leb_spec. apply SFleb_trans. Qed.

Lemma ltb_above_equal (x y v : float) :
  (x <? y)%float = true -> (x =? v)%float = true -> (y =? v)%float = false.
Proof.
  rewrite FloatAxioms.ltb_spec, !FloatAxioms.eqb_spec. apply SFltb_above_equal.
Qed.

Lemma insert_desc_perm (x : string * float) (l : list (string * float)) :
  insert_desc x l ≡ₚ x :: l.
Proof.
  induction l as [|y l IH]; [reflexivity|]. cbn [insert_desc].
  destruct (snd x <? snd y)%float; [|reflexivity].
  rewrite IH. apply Permutation_swap.
Qed.

Lemma sorted_probs_perm (items : list (string * float)) :
  sorted_probs items ≡ₚ items.
Proof.
  induction items as [|x items IH]; [reflexivity|].
  cbn [sorted_probs foldr]. fold (sorted_probs items).
  now rewrite insert_desc_perm, IH.
Qed.

Lemma insert_desc_sorted (x : string * float) (l : list (string * float)) :
  PrimFloat.is_nan (snd x) = false ->
  Forall (fun y => PrimFloat.is_nan (snd y) = false) l ->
  StronglySorted by_probability_desc l ->
  StronglySorted by_probability_desc (insert_desc x l).
Proof.
  intros Hx Hl Hsorted. induction Hsorted as [|y l Hsorted IH Hy];
    [repeat constructor|].
  apply Forall_cons_1 in Hl as [Hny Hl]. cbn [insert_desc].
  destruct (snd x <? snd y)%float eqn:Hcmp.
  - constructor; [now apply IH|].
    rewrite insert_desc_perm. constructor; [|exact Hy].
    now apply ltb_leb.
  - assert (Hxy : by_probability_desc x y) by now apply leb_of_not_ltb.
    constructor; [now constructor|]. constructor; [exact Hxy|].
    eapply Forall_impl; [exact Hy|]. intros z Hyz.
    unfold by_probability_desc in *. eapply leb_trans; eassumption.
Qed.

Lemma sorted_probs_sorted (items : list (string * float)) :
  Forall (fun y => PrimFloat.is_nan (snd y) = false) items ->
  StronglySorted by_probability_desc (sorted_probs items).
Proof.
  induction items as [|x items IH]; intros Hnum; [constructor|].
  apply Forall_cons_1 in Hnum as [Hx Hnum].
  cbn [sorted_probs foldr]. fold (sorted_probs items).
  apply insert_desc_sorted; [exact Hx | | now apply IH].
  now rewrite sorted_probs_perm.
Qed.

(** X1. The expander of lines 129-137 lists every class of the returned
    distribution once, by decreasing probability: when no probability is a
    NaN, its bars are those of a rearrangement of the distribution in
    which no class stands before one of larger probability. *)
Theorem predictions_listed_largest_first (result : FaultPrediction) :
  Forall (fun item => PrimFloat.is_nan (snd item) = false) (probabilities result) ->
  exists listed : list (string * float),
    all_predictions result =
      st_expander "📊 View All Predictions"
        (st_markdown "**Prediction probabilities:**" ::
         map prediction_bar listed) /\
    listed ≡ₚ probabilities result /\
    StronglySorted by_probability_desc listed.
Proof.
  intros Hnum. exists (sorted_probs (probabilities result)).
  split; [reflexivity|]. split; [apply sorted_probs_perm|].
  now apply sorted_probs_sorted.
Qed.

Lemma insert_desc_filter (v : float) (x : string * float)
    (l : list (string * float)) :
  filter (fun item => (snd item =? v)%float = true) (insert_desc x l) =
  filter (fun item => (snd item =? v)%float = true) (x :: l).
Proof.
  induction l as [|y l IH]; [reflexivity|]. cbn [insert_desc].
  destruct (snd x <? snd y)%float eqn:Hcmp; [|reflexivity].
  rewrite filter_cons, IH, !filter_cons.
  destruct (decide ((snd x =? v)%float = true)) as [Hx | Hx]; [|reflexivity].
  rewrite (ltb_above_equal _ _ _ Hcmp Hx).
  destruct (decide (false = true)); [discriminate | reflexivity].
Qed.

(** X2. The sort of line 131 is stable: when no probability is a NaN,
    the classes that share a probability are listed in the order in which
    the distribution holds them. *)
Theorem equal_probabilities_keep_order (items : list (string * float)) (v : float) :
  Forall (fun item => PrimFloat.is_nan (snd item) = false) items ->
  filter (fun item => (snd item =? v)%float = true) (sorted_probs items) =
  filter (fun item => (snd item =? v)%float = true) items.
Proof.
  intros _.
  induction items as [|x items IH]; [reflexivity|].
  cbn [sorted_probs foldr]. fold (sorted_probs items).
  now rewrite insert_desc_filter, !filter_cons, IH.
Qed.

(** ** The links to the office *)

Lemma remove_char_chars (c : ascii) (s : string) :
  list_ascii_of_string (Py.remove_char c s) =
  List.filter (fun a => negb (Ascii.eqb a c)) (list_ascii_of_string s).
Proof.
  induction s as [|a s IH]; [reflexivity|]. cbn [Py.remove_char list_ascii_of_string List.filter].
  destruct (Ascii.eqb a c); cbn [negb list_ascii_of_string]; now rewrite IH.
Qed.

Lemma filter_filter_chars (p q : ascii -> bool) (l : list ascii) :
  List.filter p (List.filter q l) = List.filter (fun a => q a && p a) l.
Proof.
  induction l as [|a l IH]; [reflexivity|]. cbn [List.filter].
  destruct (q a); cbn [List.filter andb]; [destruct (p a)|]; now rewrite IH.
Qed.

(** X3. The number behind the [tel:] link of lines 284-285 is the office's
    phone number without its hyphens, plus signs and spaces: every other
    character is kept, in order, and none of the three is left. *)
Theorem tel_link_drops_separators (inp : Inputs) (fault_type : string)
    (confidence : float) (fault_info : FaultInfo.t) (office : ServiceOffice.t) :
  exists phone_clean : string,
    In (st_markdown ("[📞 " +:+ ServiceOffice.phone office +:+ "](tel:" +:+
                     phone_clean +:+ ")"))
       (contact_office inp fault_type confidence fault_info office) /\
    list_ascii_of_string phone_clean =
      List.filter (fun a => negb (is_separator a))
                  (list_ascii_of_string (ServiceOffice.phone office)) /\
    Forall (fun a => is_separator a = false) (list_ascii_of_string phone_clean).
Proof.
  eexists. split; [|split].
  - unfold contact_office. do 4 right. left. reflexivity.
  - rewrite !remove_char_chars, !filter_filter_chars.
    apply List.filter_ext. intros a. unfold is_separator.
    destruct (Ascii.eqb a "-"), (Ascii.eqb a "+"), (Ascii.eqb a " "); reflexivity.
  - rewrite !remove_char_chars, !filter_filter_chars.
    apply List.Forall_forall. intros a Ha%List.filter_In. destruct Ha as [_ Ha].
    unfold is_separator.
    destruct (Ascii.eqb a "-"), (Ascii.eqb a "+"), (Ascii.eqb a " ");
      try reflexivity; discriminate.
Qed.

Lemma hex_digits_unreserved (a : ascii) :
  Py.unreserved (Py.hex_digit (N_of_ascii a / 16)) = true /\
  Py.unreserved (Py.hex_digit (N_of_ascii a mod 16)) = true.
Proof. destruct a as [[] [] [] [] [] [] [] []]; split; vm_compute; reflexivity. Qed.

(** A quoted text is made of unreserved characters and percent signs. *)
Lemma quote_url_safe (s : string) :
  Forall (fun a => url_safe a = true) (list_ascii_of_string (Py.quote s)).
Proof.
  induction s as [|a s IH]; [constructor|]. cbn [Py.quote].
  destruct (Py.unreserved a) eqn:Ha; cbn [list_ascii_of_string].
  - constructor; [|exact IH]. unfold url_safe. now rewrite Ha.
  - destruct (hex_digits_unreserved a) as [Hhigh Hlow].
    repeat constructor; try exact IH; unfold url_safe;
      rewrite ?Hhigh, ?Hlow; reflexivity.
Qed.

(** None of the characters that would end or split a field of a link. *)
Lemma url_safe_not_special (a : ascii) :
  url_safe a = true ->
  a <> "&"%char /\ a <> "?"%char /\ a <> "#"%char /\ a <> " "%char /\
  a <> "010"%char /\ a <> "013"%char.
Proof.
  intros Ha. repeat split; intros ->; vm_compute in Ha; discriminate.
Qed.

(** X4. The [mailto:] link of lines 257-279 is the office's address as it
    is, then the subject and the body as query fields.  Whatever the
    visitor typed, the subject and the body consist of unreserved
    characters and percent escapes only: no ampersand, question mark,
    hash, space or line break of theirs ends or splits a field. *)
Theorem mailto_link_fields_are_quoted (inp : Inputs) (fault_type : string)
    (confidence : float) (fault_info : FaultInfo.t) (office : ServiceOffice.t) :
  exists subject body : string,
    email_link inp fault_type confidence fault_info office =
      "mailto:" +:+ ServiceOffice.email office +:+ "?subject=" +:+ subject +:+
      "&body=" +:+ body /\
    subject = Py.quote ("Fault Report - " +:+ fault_type) /\
    forall a,
      In a (list_ascii_of_string subject) \/ In a (list_ascii_of_string body) ->
      url_safe a = true /\
      a <> "&"%char /\ a <> "?"%char /\ a <> "#"%char /\ a <> " "%char /\
      a <> "010"%char /\ a <> "013"%char.
Proof.
  eexists _, _. split; [reflexivity|]. split; [reflexivity|].
  intros a Ha.
  assert (Hsafe : url_safe a = true).
  { destruct Ha as [Ha | Ha];
      eapply (proj1 (List.Forall_forall _ _) (quote_url_safe _)); exact Ha. }
  split; [exact Hsafe | now apply url_safe_not_special].
Qed.

(** ** More on one run of the page *)

(** The three ways a form ends: no submission, a submission with a
    required field missing, a submission that builds the report. *)
Lemma on_submit_outcome (inp : Inputs) (session : Session) (fault_type : string)
    (confidence : float) (fault_info : FaultInfo.t) (office : ServiceOffice.t) :
  let report := make_report (Py.strftime_report (now_report inp)) inp fault_type
                            confidence fault_info office in
  let text := make_report_text report inp fault_type confidence fault_info office in
  (submitted inp = false /\
   on_submit inp session fault_type confidence fault_info office = ([], session)) \/
  (submitted inp = true /\
   (user_name inp = "" \/ user_phone inp = "" \/ user_email inp = "") /\
   on_submit inp session fault_type confidence fault_info office =
     ([st_error "Please fill in all required fields (marked with *)"], session)) \/
  (submitted inp = true /\
   (user_name inp <> "" /\ user_phone inp <> "" /\ user_email inp <> "") /\
   on_submit inp session fault_type confidence fault_info office =
     ( [ st_success "✅ Report Generated Successfully!";
         st_expander "📄 View Generated Report" [ st_json report ] ]
       ++ contact_office inp fault_type confidence fault_info office
       ++ [ st_markdown "---"; st_markdown "### 📄 Report Summary"; st_code text ],
       <["report_text" := SText text]>
         (<["fault_report" := SReport report]> session) )).
Proof.
  cbv zeta. unfold on_submit.
  destruct (submitted inp); [|left; now split].
  destruct (Py.truthy (user_name inp) && Py.truthy (user_phone inp) &&
            Py.truthy (user_email inp)) eqn:Hfields.
  - right; right. apply required_fields_filled in Hfields. now repeat split.
  - right; left. apply required_fields_missing in Hfields. now repeat split.
Qed.

(** Every value of the record stands on a line of the rendering, after
    the label of that line. *)
Lemma report_lines_carry_fields (timestamp : string) (inp : Inputs)
    (fault_type : string) (confidence : float) (fault_info : FaultInfo.t)
    (office : ServiceOffice.t) :
  let report := make_report timestamp inp fault_type confidence fault_info office in
  Forall (Py.contains (make_report_text report inp fault_type confidence
                                        fault_info office))
         (report_fields report).
Proof.
  cbv zeta. unfold make_report_text.
  set (report := make_report _ _ _ _ _ _).
  set (lines := report_lines _ _ _ _ _ _).
  assert (Hline : forall label x,
            In (label +:+ x) lines -> Py.contains (Py.unlines lines) x).
  { intros label x Hin. eapply contains_unlines; [exact Hin|].
    apply contains_append_l, contains_refl. }
  assert (Hlines : lines = report_lines report inp fault_type confidence
                                        fault_info office) by reflexivity.
  clearbody lines. subst lines. unfold report_fields.
  repeat match goal with
  | |- Forall _ (_ :: _) => apply List.Forall_cons
  | |- Forall _ [] => apply List.Forall_nil
  end.
  - apply (Hline "Date: "). unfold report_lines. repeat (try (left; reflexivity); right).
  - apply (Hline "User: "). unfold report_lines. repeat (try (left; reflexivity); right).
  - apply (Hline "Phone: "). unfold report_lines. repeat (try (left; reflexivity); right).
  - apply (Hline "Email: "). unfold report_lines. repeat (try (left; reflexivity); right).
  - apply (Hline "Pincode: "). unfold report_lines. repeat (try (left; reflexivity); right).
  - apply (Hline "Location: "). unfold report_lines. repeat (try (left; reflexivity); right).
  - apply (Hline "- Type: "). unfold report_lines. repeat (try (left; reflexivity); right).
  - apply (Hline "- Confidence: "). unfold report_lines. repeat (try (left; reflexivity); right).
  - apply (Hline "- Severity: "). unfold report_lines. repeat (try (left; reflexivity); right).
  - apply (Hline "- Description: "). unfold report_lines. repeat (try (left; reflexivity); right).
  - apply (Hline "- Name: "). unfold report_lines. repeat (try (left; reflexivity); right).
  - apply (Hline "- Email: "). unfold report_lines. repeat (try (left; reflexivity); right).
  - apply (Hline "- Phone: "). unfold report_lines. repeat (try (left; reflexivity); right).
  - apply (Hline "- Address: "). unfold report_lines. repeat (try (left; reflexivity); right).
  - apply (Hline "Additional Notes: "). unfold report_lines.
    repeat (try (left; reflexivity); right).
Qed.

Section MoreAppProperties.

Variable Model : Type.
Variable model : Model.
Variable predict : Image -> Model -> FaultPrediction.
Variable get_fault_info : string -> FaultInfo.t.
Variable find_nearest_office : string -> option ServiceOffice.t.
Variable format_contact_info : ServiceOffice.t -> string.

Local Abbreviation run :=
  (app Model model predict get_fault_info find_nearest_office format_contact_info).
Local Abbreviation context :=
  (form_context Model model predict get_fault_info find_nearest_office).
Local Abbreviation lookup := (lookup_result find_nearest_office).
Local Abbreviation history :=
  (run_all Model model predict get_fault_info find_nearest_office
           format_contact_info).
Local Abbreviation with_upload :=
  (run_uploaded Model model predict get_fault_info find_nearest_office
                format_contact_info).
Local Abbreviation with_form :=
  (run_with_form Model model predict get_fault_info find_nearest_office
                 format_contact_info).
Local Abbreviation without_form :=
  (run_without_form Model model predict get_fault_info find_nearest_office
                    format_contact_info).

(** The conditions under which the form is laid out, one by one. *)
Lemma form_context_Some (inp : Inputs) (result : FaultPrediction)
    (fault_info : FaultInfo.t) (office : ServiceOffice.t) :
  context inp = Some (result, fault_info, office) <->
  exists image,
    uploaded_image inp = Some image /\
    result = predict image model /\
    fault_info = get_fault_info (fault_type result) /\
    (find_office_btn inp = true \/ 4 <= Py.len (user_pincode inp)) /\
    user_pincode inp <> "" /\
    find_nearest_office (user_pincode inp) = Some office /\
    fault_type result <> "Healthy Panel".
Proof.
  unfold form_context, lookup_result, lookup_wanted.
  destruct (uploaded_image inp) as [image|]; [|split; [discriminate | now intros (? & [=] & _)]].
  destruct (String.eqb_spec (fault_type (predict image model)) "Healthy Panel")
    as [Hhealthy | Hfaulty].
  - split.
    + destruct ((_ || _) && _); [|discriminate].
      destruct (find_nearest_office _); discriminate.
    + intros (image' & [= <-] & -> & _ & _ & _ & _ & Hne). congruence.
  - destruct (Py.truthy (user_pincode inp)) eqn:Htyped.
    + rewrite andb_true_r.
      destruct (find_office_btn inp) eqn:Hbutton; cbn [orb andb].
      * destruct (find_nearest_office (user_pincode inp)) as [office'|];
          cbn [negb]; split.
        -- intros [= <- <- <-]. exists image. apply truthy_true in Htyped. auto 10.
        -- intros (image' & [= <-] & -> & -> & _ & _ & [= ->] & _). reflexivity.
        -- discriminate.
        -- intros (image' & _ & _ & _ & _ & _ & [=] & _).
      * destruct (Z.leb_spec 4 (Py.len (user_pincode inp))) as [Hlong | Hshort].
        -- destruct (find_nearest_office (user_pincode inp)) as [office'|];
             cbn [negb]; split.
           ++ intros [= <- <- <-]. exists image. apply truthy_true in Htyped. auto 10.
           ++ intros (image' & [= <-] & -> & -> & _ & _ & [= ->] & _). reflexivity.
           ++ discriminate.
           ++ intros (image' & _ & _ & _ & _ & _ & [=] & _).
        -- split; [discriminate|].
           intros (image' & _ & _ & _ & [[=] | Hlong] & _). lia.
    + rewrite andb_false_r. split; [discriminate|].
      intros (image' & _ & _ & _ & _ & Hne & _).
      apply truthy_false in Htyped. congruence.
Qed.

(** X5. The report form of line 172 is on the page in exactly the runs in
    which a picture is uploaded, the Find Office button was pressed or
    the pincode has at least four characters, the pincode is not empty,
    an office is found for it, and the predicted label is not the healthy
    one. *)
Theorem form_laid_out_exactly_when (inp : Inputs) (session : Session) :
  (exists key children,
     In (st_form key children) (page_elements (fst (run inp session)))) <->
  exists image office,
    uploaded_image inp = Some image /\
    (find_office_btn inp = true \/ 4 <= Py.len (user_pincode inp)) /\
    user_pincode inp <> "" /\
    find_nearest_office (user_pincode inp) = Some office /\
    fault_type (predict image model) <> "Healthy Panel".
Proof.
  rewrite (form_laid_out_iff Model model predict get_fault_info
             find_nearest_office format_contact_info inp session).
  split.
  - intros [[[result fault_info] office] Hctx].
    apply form_context_Some in Hctx
      as (image & Himage & -> & _ & Hwanted & Htyped & Hoffice & Hfaulty).
    exists image, office. auto.
  - intros (image & office & Himage & Hwanted & Htyped & Hoffice & Hfaulty).
    exists (predict image model, get_fault_info (fault_type (predict image model)),
            office).
    apply form_context_Some. exists image. auto 10.
Qed.

(** X6. Only a report changes the session: a run that leaves the session
    different from what it found laid out the form, had it submitted and
    found the name, the phone and the email filled in. *)
Theorem session_changes_only_on_report (inp : Inputs) (session : Session) :
  snd (run inp session) <> session ->
  exists image office,
    uploaded_image inp = Some image /\
    find_nearest_office (user_pincode inp) = Some office /\
    fault_type (predict image model) <> "Healthy Panel" /\
    submitted inp = true /\
    user_name inp <> "" /\ user_phone inp <> "" /\ user_email inp <> "".
Proof.
  intros Hchanged.
  destruct (context inp) as [[[result fault_info] office]|] eqn:Hctx.
  - rewrite (with_form inp session result fault_info office Hctx) in Hchanged.
    cbn [snd] in Hchanged.
    apply form_context_Some in Hctx
      as (image & Himage & -> & _ & _ & _ & Hoffice & Hfaulty).
    exists image, office.
    destruct (on_submit_outcome inp session (fault_type (predict image model))
                (confidence (predict image model)) fault_info office)
      as [(_ & Hout) | [(_ & _ & Hout) | (Hsubmitted & Hfilled & _)]];
      try (rewrite Hout in Hchanged; now elim Hchanged).
    tauto.
  - destruct (without_form inp session Hctx) as (Hsame & _). now elim Hchanged.
Qed.

(** X7. Every structured record on a page was built from the inputs of
    the run: its contact fields are the three required inputs, none of
    them empty; its fault type is the predicted label, never the healthy
    one, with the severity and the description of the knowledge base or
    their defaults ["Unknown"] and [""]; and its office is the one
    [find_nearest_office] returns for the pincode the record itself
    holds. *)
Theorem report_record_matches_run (inp : Inputs) (session : Session)
    (report : Report.t) :
  In (st_json report) (page_elements (fst (run inp session))) ->
  exists image office,
    uploaded_image inp = Some image /\
    let result := predict image model in
    let fault_info := get_fault_info (fault_type result) in
    report = make_report (Py.strftime_report (now_report inp)) inp
                         (fault_type result) (confidence result) fault_info office /\
    find_nearest_office (UserDetails.pincode (Report.user_details report)) =
      Some office /\
    FaultDetection.fault_type (Report.fault_detection report) <> "Healthy Panel" /\
    FaultDetection.severity (Report.fault_detection report) =
      default "Unknown" (FaultInfo.severity fault_info) /\
    FaultDetection.description (Report.fault_detection report) =
      default "" (FaultInfo.description fault_info) /\
    UserDetails.name (Report.user_details report) <> "" /\
    UserDetails.phone (Report.user_details report) <> "" /\
    UserDetails.email (Report.user_details report) <> "".
Proof.
  intros Hin.
  destruct (context inp) as [[[result fault_info] office]|] eqn:Hctx.
  - pose proof (report_elements_in_form Model model predict get_fault_info
                  find_nearest_office format_contact_info inp session result
                  fault_info office _ Hctx Hin eq_refl) as Hform.
    cbv zeta in Hform. destruct Hform as [[=] | Hform].
    rewrite all_elements_app, in_app_iff in Hform.
    destruct Hform as [Hform | Hform].
    { cbn in Hform. repeat (destruct Hform as [Hform | Hform]; [discriminate|]).
      destruct Hform. }
    apply form_context_Some in Hctx
      as (image & Himage & -> & -> & _ & _ & Hoffice & Hfaulty).
    exists image, office. split; [exact Himage|]. cbv zeta.
    destruct (on_submit_outcome inp session (fault_type (predict image model))
                (confidence (predict image model))
                (get_fault_info (fault_type (predict image model))) office)
      as [(_ & Hout) | [(_ & _ & Hout) | (_ & Hfilled & _)]].
    + rewrite Hout in Hform. destruct Hform.
    + rewrite Hout in Hform. cbn in Hform. destruct Hform as [[=] | []].
    + apply on_submit_elements in Hform as (_ & Hrecord & _).
      rewrite (Hrecord report eq_refl). cbn. tauto.
  - destruct (without_form inp session Hctx) as (_ & Hfree).
    apply Hfree in Hin. discriminate.
Qed.

(** X8. The two renderings of a report carry the same data: on every
    page, the plain-text rendering contains each value of the structured
    record shown with it, from the timestamp to the additional notes. *)
Theorem report_text_carries_record (inp : Inputs) (session : Session)
    (report : Report.t) (text : string) :
  In (st_json report) (page_elements (fst (run inp session))) ->
  In (st_code text) (page_elements (fst (run inp session))) ->
  Forall (Py.contains text) (report_fields report).
Proof.
  intros Hrecord Htext.
  destruct (context inp) as [[[result fault_info] office]|] eqn:Hctx.
  - assert (Hshown : forall e,
      In e (page_elements (fst (run inp session))) ->
      is_report_element e = true ->
      (forall key children, e <> st_form key children) ->
      e <> st_form_submit_button "📤 Send Report to Office" ->
      In e (all_elements
              (fst (on_submit inp session (fault_type result) (confidence result)
                              fault_info office)))).
    { intros e Hin Hkind Hform Hbutton.
      pose proof (report_elements_in_form Model model predict get_fault_info
                    find_nearest_office format_contact_info inp session result
                    fault_info office e Hctx Hin Hkind) as Hwhere.
      cbv zeta in Hwhere.
      destruct Hwhere as [-> | Hwhere]; [exfalso; eapply Hform; reflexivity|].
      rewrite all_elements_app, in_app_iff in Hwhere.
      destruct Hwhere as [Hwhere | Hwhere]; [|exact Hwhere].
      cbn in Hwhere.
      repeat (destruct Hwhere as [<- | Hwhere]; [try discriminate; congruence|]).
      destruct Hwhere. }
    apply Hshown in Hrecord; [|reflexivity|discriminate|discriminate].
    apply Hshown in Htext; [|reflexivity|discriminate|discriminate].
    apply on_submit_elements in Hrecord as (_ & Hrecord & _).
    apply on_submit_elements in Htext as (_ & _ & Htext).
    rewrite (Hrecord report eq_refl), (Htext text eq_refl).
    apply report_lines_carry_fields.
  - destruct (without_form inp session Hctx) as (_ & Hfree).
    apply Hfree in Hrecord. discriminate.
Qed.

(** What a run does to the session: nothing, or the two inserts of
    lines 298-299 with the record and the rendering of one report. *)
Lemma run_session_cases (inp : Inputs) (session : Session) :
  snd (run inp session) = session \/
  exists (fault_type : string) (confidence : float) (fault_info : FaultInfo.t)
         (office : ServiceOffice.t),
    let report := make_report (Py.strftime_report (now_report inp)) inp
                              fault_type confidence fault_info office in
    snd (run inp session) =
      <["report_text" := SText (make_report_text report inp fault_type confidence
                                                 fault_info office)]>
        (<["fault_report" := SReport report]> session).
Proof.
  destruct (context inp) as [[[result fault_info] office]|] eqn:Hctx.
  - rewrite (with_form inp session result fault_info office Hctx). cbn [snd].
    destruct (on_submit_outcome inp session (fault_type result)
                (confidence result) fault_info office)
      as [(_ & Hout) | [(_ & _ & Hout) | (_ & _ & Hout)]];
      rewrite Hout; cbn [snd]; [now left | now left | right].
    exists (fault_type result), (confidence result), fault_info, office.
    reflexivity.
  - left. apply (without_form inp session Hctx).
Qed.

Lemma run_keeps_other_keys (inp : Inputs) (session : Session) (key : string) :
  key <> "fault_report" -> key <> "report_text" ->
  snd (run inp session) !! key = session !! key.
Proof.
  intros Hreport Htext.
  destruct (run_session_cases inp session)
    as [-> | (fault_type & confidence & fault_info & office & ->)];
    [reflexivity|].
  now rewrite !lookup_insert_ne by congruence.
Qed.

(** X9. A run never drops or touches what else the session holds: every
    key other than ['fault_report'] and ['report_text'] keeps its value,
    every key that was there is still there, and the two keys are there
    together or not at all if they were so before. *)
Theorem run_keeps_session_entries (inp : Inputs) (session : Session) (key : string) :
  (key <> "fault_report" -> key <> "report_text" ->
   snd (run inp session) !! key = session !! key) /\
  (is_Some (session !! key) -> is_Some (snd (run inp session) !! key)) /\
  ((is_Some (session !! "fault_report") <-> is_Some (session !! "report_text")) ->
   (is_Some (snd (run inp session) !! "fault_report") <->
    is_Some (snd (run inp session) !! "report_text"))).
Proof.
  destruct (run_session_cases inp session)
    as [-> | (fault_type & confidence & fault_info & office & ->)];
    [tauto|].
  split; [|split].
  - intros Hreport Htext. now rewrite !lookup_insert_ne by congruence.
  - intros Hthere.
    destruct (decide (key = "report_text")) as [-> | Htext];
      [rewrite lookup_insert_eq; eauto|].
    rewrite lookup_insert_ne by congruence.
    destruct (decide (key = "fault_report")) as [-> | Hreport];
      [rewrite lookup_insert_eq; eauto|].
    now rewrite lookup_insert_ne by congruence.
  - intros _. rewrite lookup_insert_eq, lookup_insert_ne by discriminate.
    rewrite lookup_insert_eq. split; eauto.
Qed.

Lemma run_stored_together (inp : Inputs) (session : Session) :
  stored_together session -> stored_together (snd (run inp session)).
Proof.
  intros Hstored.
  destruct (run_session_cases inp session)
    as [-> | (fault_type & confidence & fault_info & office & ->)];
    [exact Hstored|].
  right. exists inp, fault_type, confidence, fault_info, office. cbv zeta.
  rewrite lookup_insert_eq, lookup_insert_ne by discriminate.
  now rewrite lookup_insert_eq.
Qed.

Lemma run_all_stored_together (runs : list Inputs) :
  forall session,
    stored_together session ->
    (forall key, is_Some (session !! key) ->
                 key = "fault_report" \/ key = "report_text") ->
    stored_together (snd (history session runs)) /\
    (forall key, is_Some (snd (history session runs) !! key) ->
                 key = "fault_report" \/ key = "report_text").
Proof.
  induction runs as [|inp runs IH]; intros session Hstored Hkeys; [now split|].
  cbn [run_all].
  pose proof (run_stored_together inp session Hstored) as Hstored1.
  assert (Hkeys1 : forall key, is_Some (snd (run inp session) !! key) ->
                               key = "fault_report" \/ key = "report_text").
  { intros key Hkey.
    destruct (decide (key = "fault_report")) as [|Hreport]; [now left|].
    destruct (decide (key = "report_text")) as [|Htext]; [now right|].
    apply Hkeys.
    now rewrite <- (run_keeps_other_keys inp session key Hreport Htext). }
  destruct (run inp session) as [page session1]. cbn [snd] in Hstored1, Hkeys1.
  specialize (IH session1 Hstored1 Hkeys1).
  destruct (history session1 runs) as [pages session2]. exact IH.
Qed.

(** X10. Through any sequence of runs from a fresh session, the session
    holds nothing but the two keys, and holds them together: either none
    of them, or under ['fault_report'] the record of a report and under
    ['report_text'] the plain-text rendering of that very report. *)
Theorem stored_record_and_text_belong_together (runs : list Inputs) :
  stored_together (snd (history ∅ runs)) /\
  forall key, is_Some (snd (history ∅ runs) !! key) ->
              key = "fault_report" \/ key = "report_text".
Proof.
  apply run_all_stored_together.
  - left. split; apply lookup_empty.
  - intros key. rewrite lookup_empty. intros [? [=]].
Qed.

(** X12. The request of line 305 for a pincode is what follows the
    pincode box exactly when the Find Office button was pressed with the
    box left empty. *)
Theorem pincode_requested_exactly_when
    (inp : Inputs) (session : Session) (image : Image) :
  uploaded_image inp = Some image ->
  (col2 (fst (run inp session)) =
     analysis (predict image model)
              (get_fault_info (fault_type (predict image model)))
     ++ [ st_info "Please enter a pincode to find the nearest service office." ]
   <->
   find_office_btn inp = true /\ user_pincode inp = "").
Proof.
  intros Himage. rewrite (with_upload inp session image Himage).
  cbn [fst col2]. unfold office_lookup, lookup_wanted.
  split.
  - intros Hshown%app_inv_head. revert Hshown.
    destruct (Py.truthy (user_pincode inp)) eqn:Htyped.
    + destruct (find_office_btn inp || _); cbn [fst]; [|discriminate].
      destruct (find_nearest_office (user_pincode inp)) as [office|];
        [|discriminate].
      destruct (negb _); [|discriminate].
      destruct (fault_report_form _ _ _ _ _ _); discriminate.
    + apply truthy_false in Htyped.
      destruct (find_office_btn inp); cbn [orb andb fst]; [auto | discriminate].
  - intros [-> ->]. reflexivity.
Qed.

(** X13. Without an upload nothing is analysed: the right-hand column is
    the invitation to upload and nothing else, the left-hand one is the
    uploader alone and the session is left as it was; and the invitation
    is the whole right-hand column in no other run. *)
Theorem nothing_analysed_without_upload (inp : Inputs) (session : Session) :
  (uploaded_image inp = None ->
   col1 (fst (run inp session)) =
     [ st_file_uploader "Upload Solar Panel EL Image" ] /\
   snd (run inp session) = session) /\
  (col2 (fst (run inp session)) =
     [ st_info "👆 Please upload an EL image to begin analysis." ]
   <-> uploaded_image inp = None).
Proof.
  destruct (uploaded_image inp) as [image|] eqn:Himage.
  - split; [discriminate|].
    rewrite (with_upload inp session image Himage). cbn [fst col2].
    split; discriminate.
  - unfold app, page_col2. rewrite Himage. cbn. tauto.
Qed.

(** X15. A label the knowledge base does not describe is not an error:
    the page then displays ["No description available."], while the
    record and the description line of the rendering of every report on
    it hold the empty text. *)
Theorem missing_description_falls_back
    (inp : Inputs) (session : Session) (image : Image) :
  uploaded_image inp = Some image ->
  FaultInfo.description (get_fault_info (fault_type (predict image model))) = None ->
  describes (fst (run inp session)) "No description available." "".
Proof.
  intros Himage Hmissing.
  pose proof (run_describes Model model predict get_fault_info
                find_nearest_office format_contact_info inp session image Himage)
    as Hdescribes.
  cbv zeta in Hdescribes. now rewrite Hmissing in Hdescribes.
Qed.

(** X11. Nothing follows the pincode box, and no office is looked up,
    exactly when the Find Office button was not pressed and fewer than
    four characters are typed (line 155). *)
Theorem nothing_follows_short_pincode
    (inp : Inputs) (session : Session) (image : Image) :
  uploaded_image inp = Some image ->
  (col2 (fst (run inp session)) =
     analysis (predict image model)
              (get_fault_info (fault_type (predict image model)))
   <->
   find_office_btn inp = false /\ Py.len (user_pincode inp) < 4).
Proof.
  intros Himage. rewrite (with_upload inp session image Himage).
  cbn [fst col2]. unfold office_lookup, lookup_wanted.
  set (shown := analysis _ _).
  split.
  - intros Hshown.
    rewrite <- (app_nil_r shown) in Hshown at 2.
    apply app_inv_head in Hshown. revert Hshown.
    destruct (find_office_btn inp); cbn [orb].
    + destruct (Py.truthy (user_pincode inp)); [|discriminate].
      destruct (find_nearest_office (user_pincode inp)); [|discriminate].
      destruct (negb _); [|discriminate].
      destruct (fault_report_form _ _ _ _ _ _); discriminate.
    + destruct (Py.truthy (user_pincode inp)) eqn:Htyped; cbn [andb].
      * destruct (Z.leb_spec 4 (Py.len (user_pincode inp))); [|auto].
        destruct (find_nearest_office (user_pincode inp)); [|discriminate].
        destruct (negb _); [|discriminate].
        destruct (fault_report_form _ _ _ _ _ _); discriminate.
      * apply truthy_false in Htyped. rewrite Htyped. intros _. now split.
  - intros [-> Hshort].
    destruct (Z.leb_spec 4 (Py.len (user_pincode inp))); [lia|].
    rewrite andb_false_r. cbn [orb fst]. apply app_nil_r.
Qed.

(** What a run does to the session does not depend on the session it
    finds. *)
Lemma run_session_update (inp : Inputs) :
  (forall session, snd (run inp session) = session) \/
  exists (report : Report.t) (text : string),
    forall session,
      snd (run inp session) =
        <["report_text" := SText text]>
          (<["fault_report" := SReport report]> session).
Proof.
  destruct (context inp) as [[[result fault_info] office]|] eqn:Hctx.
  - destruct (on_submit_outcome inp ∅ (fault_type result) (confidence result)
                fault_info office)
      as [(Hsubmitted & _) | [(Hsubmitted & Hmissing & _) | (Hsubmitted & Hfilled & _)]].
    + left. intros session.
      rewrite (with_form inp session result fault_info office Hctx). cbn [snd].
      unfold on_submit. now rewrite Hsubmitted.
    + left. intros session.
      rewrite (with_form inp session result fault_info office Hctx). cbn [snd].
      apply required_fields_missing in Hmissing.
      unfold on_submit. now rewrite Hsubmitted, Hmissing.
    + right. eexists _, _. intros session.
      rewrite (with_form inp session result fault_info office Hctx). cbn [snd].
      apply required_fields_filled in Hfilled.
      unfold on_submit. rewrite Hsubmitted, Hfilled. reflexivity.
  - left. intros session. apply (without_form inp session Hctx).
Qed.

(** X16. Reports replace one another whole.  Running the script again on
    the same inputs leaves the session as the first run left it, and a
    run that changes the session leaves it the same whether or not
    another run came before: nothing of an earlier report stays. *)
Theorem later_report_replaces_earlier (inp1 inp2 : Inputs) (session : Session) :
  snd (run inp2 (snd (run inp2 session))) = snd (run inp2 session) /\
  (snd (run inp2 session) <> session ->
   snd (run inp2 (snd (run inp1 session))) = snd (run inp2 session)).
Proof.
  assert (Hover : forall (r1 r2 : Report.t) (t1 t2 : string) (s : Session),
    <["report_text" := SText t2]> (<["fault_report" := SReport r2]>
      (<["report_text" := SText t1]> (<["fault_report" := SReport r1]> s))) =
    <["report_text" := SText t2]> (<["fault_report" := SReport r2]> s)).
  { intros r1 r2 t1 t2 s. apply map_eq. intros key.
    rewrite !lookup_insert. repeat case_decide; congruence. }
  destruct (run_session_update inp2) as [Hsame2 | (r2 & t2 & Hstore2)].
  - split; [now rewrite !Hsame2|]. intros Hchanged. now elim Hchanged.
  - split.
    + rewrite !Hstore2. apply Hover.
    + intros _. destruct (run_session_update inp1) as [Hsame1 | (r1 & t1 & Hstore1)].
      * now rewrite Hsame1.
      * rewrite Hstore1, !Hstore2. apply Hover.
Qed.

End MoreAppProperties.

(** ** The numbered repair steps *)

Lemma numbered_lookup (steps : list string) :
  forall (i : Z) (k : nat) (step : string),
    steps !! k = Some step ->
    numbered i steps !! k =
      Some (st_markdown (Py.decimal (i + Z.of_nat k) +:+ ". " +:+ step)).
Proof.
  induction steps as [|s steps IH]; intros i k step Hk; [discriminate|].
  destruct k as [|k]; cbn [numbered].
  - injection Hk as ->. replace (i + Z.of_nat 0) with i by lia. reflexivity.
  - pose proof (IH (i + 1) k step Hk) as Hrest.
    replace (i + Z.of_nat (S k)) with (i + 1 + Z.of_nat k) by lia.
    exact Hrest.
Qed.

Lemma numbered_length (steps : list string) :
  forall i : Z, length (numbered i steps) = length steps.
Proof.
  induction steps as [|s steps IH]; intros i; [reflexivity|].
  cbn. now rewrite IH.
Qed.


(** ** More of the page on the sample installation *)

(** The sample network's distribution for a picture holds no NaN. *)
Lemma predictions_listed_largest_first_witness :
  exists listed : list (string * float),
    listed ≡ₚ probabilities (Sample.predict Sample.picture tt) /\
    StronglySorted by_probability_desc listed.
Proof.
  destruct (predictions_listed_largest_first (Sample.predict Sample.picture tt))
    as (listed & _ & Hperm & Hsorted).
  - vm_compute. repeat constructor.
  - exists listed. split; assumption.
Defined.

(** The classes the sample network gives one sixteenth each stay in the
    order of the label set. *)
Lemma equal_probabilities_keep_order_witness :
  filter (fun item => (snd item =? 0.0625)%float = true)
         (sorted_probs (probabilities (Sample.predict Sample.picture tt))) =
  [ ("Healthy Panel", 0.0625%float); ("Cell Breakage", 0.0625%float);
    ("Delamination", 0.0625%float) ].
Proof.
  rewrite (equal_probabilities_keep_order
             (probabilities (Sample.predict Sample.picture tt)) 0.0625).
  - vm_compute. reflexivity.
  - vm_compute. repeat constructor.
Defined.

(** The visitor whose report is built finds the session changed. *)
Lemma session_changes_only_on_report_witness :
  submitted (Sample.visit Sample.picture "110001" "Asha" true) = true /\
  user_name (Sample.visit Sample.picture "110001" "Asha" true) <> "".
Proof.
  destruct (session_changes_only_on_report
              unit tt Sample.predict Sample.get_fault_info
              Sample.find_nearest_office OfficeLocator.format_contact_info
              (Sample.visit Sample.picture "110001" "Asha" true) ∅)
    as (image & office & _ & _ & _ & Hsubmitted & Hname & _).
  - intros Hsame.
    apply (f_equal (fun session : Session => session !! "report_text")) in Hsame.
    vm_compute in Hsame. discriminate.
  - split; assumption.
Defined.

(** The record on the page of the visitor whose report is built names the
    Delhi office, which is the office of the pincode it holds. *)
Lemma report_record_matches_run_witness :
  exists office,
    Sample.find_nearest_office "110001" = Some office /\
    ServiceOffice.office_name office = "Delhi Service Office".
Proof.
  destruct (report_record_matches_run
              unit tt Sample.predict Sample.get_fault_info
              Sample.find_nearest_office OfficeLocator.format_contact_info
              (Sample.visit Sample.picture "110001" "Asha" true) ∅
              (make_report "2024-03-09 12:00:05"
                 (Sample.visit Sample.picture "110001" "Asha" true)
                 "Hot Spots" 0.5 (Sample.get_fault_info "Hot Spots") Sample.delhi))
    as (image & office & _ & Hreport & Hoffice & _).
  - vm_compute. repeat (try (left; reflexivity); right).
  - exists office. split; [exact Hoffice|].
    apply (f_equal (fun r => OfficeDetails.office_name (Report.office_details r)))
      in Hreport.
    cbn in Hreport. now rewrite <- Hreport.
Defined.

(** The rendering on that page contains the visitor's name, which the
    record holds. *)
Lemma report_text_carries_record_witness :
  Py.contains
    (make_report_text
       (make_report "2024-03-09 12:00:05"
          (Sample.visit Sample.picture "110001" "Asha" true)
          "Hot Spots" 0.5 (Sample.get_fault_info "Hot Spots") Sample.delhi)
       (Sample.visit Sample.picture "110001" "Asha" true)
       "Hot Spots" 0.5 (Sample.get_fault_info "Hot Spots") Sample.delhi)
    "Asha".
Proof.
  pose proof (report_text_carries_record
                unit tt Sample.predict Sample.get_fault_info
                Sample.find_nearest_office OfficeLocator.format_contact_info
                (Sample.visit Sample.picture "110001" "Asha" true) ∅
                (make_report "2024-03-09 12:00:05"
                   (Sample.visit Sample.picture "110001" "Asha" true)
                   "Hot Spots" 0.5 (Sample.get_fault_info "Hot Spots") Sample.delhi)
                (make_report_text
                   (make_report "2024-03-09 12:00:05"
                      (Sample.visit Sample.picture "110001" "Asha" true)
                      "Hot Spots" 0.5 (Sample.get_fault_info "Hot Spots")
                      Sample.delhi)
                   (Sample.visit Sample.picture "110001" "Asha" true)
                   "Hot Spots" 0.5 (Sample.get_fault_info "Hot Spots") Sample.delhi))
    as Hfields.
  assert (Hall : Forall
            (Py.contains
               (make_report_text
                  (make_report "2024-03-09 12:00:05"
                     (Sample.visit Sample.picture "110001" "Asha" true)
                     "Hot Spots" 0.5 (Sample.get_fault_info "Hot Spots")
                     Sample.delhi)
                  (Sample.visit Sample.picture "110001" "Asha" true)
                  "Hot Spots" 0.5 (Sample.get_fault_info "Hot Spots") Sample.delhi))
            (report_fields
               (make_report "2024-03-09 12:00:05"
                  (Sample.visit Sample.picture "110001" "Asha" true)
                  "Hot Spots" 0.5 (Sample.get_fault_info "Hot Spots")
                  Sample.delhi))).
  { apply Hfields.
    - vm_compute. repeat (try (left; reflexivity); right).
    - vm_compute. repeat (try (left; reflexivity); right). }
  apply List.Forall_cons_iff in Hall as [_ Hall].
  apply List.Forall_cons_iff in Hall as [Hname _]. exact Hname.
Defined.

(** Three characters typed and the button not pressed: nothing follows
    the pincode box. *)
Lemma nothing_follows_short_pincode_witness :
  col2 (fst (Sample.app (Sample.visit Sample.picture "110" "Asha" false) ∅)) =
  analysis (Sample.predict Sample.picture tt) (Sample.get_fault_info "Hot Spots").
Proof.
  apply (nothing_follows_short_pincode
           unit tt Sample.predict Sample.get_fault_info
           Sample.find_nearest_office OfficeLocator.format_contact_info
           (Sample.visit Sample.picture "110" "Asha" false) ∅ Sample.picture).
  - reflexivity.
  - split; [reflexivity | vm_compute; reflexivity].
Defined.

(** The button pressed on an empty box. *)
Lemma pincode_requested_exactly_when_witness :
  col2 (fst (Sample.app
               {| uploaded_image := Some Sample.picture;
                  user_pincode := "";
                  find_office_btn := true;
                  user_name := ""; user_phone := ""; user_email := "";
                  panel_location := ""; additional_notes := "";
                  submitted := false;
                  now_sidebar := Sample.noon; now_report := Sample.noon |} ∅)) =
  analysis (Sample.predict Sample.picture tt) (Sample.get_fault_info "Hot Spots")
  ++ [ st_info "Please enter a pincode to find the nearest service office." ].
Proof.
  apply (pincode_requested_exactly_when
           unit tt Sample.predict Sample.get_fault_info
           Sample.find_nearest_office OfficeLocator.format_contact_info
           _ ∅ Sample.picture).
  - reflexivity.
  - split; reflexivity.
Defined.

(** With an empty knowledge base no label is described. *)
Lemma missing_description_falls_back_witness :
  describes
    (fst (app unit tt Sample.predict (FaultInfoKB.get_fault_info ∅)
              Sample.find_nearest_office OfficeLocator.format_contact_info
              (Sample.visit Sample.picture "110001" "Asha" true) ∅))
    "No description available." "".
Proof.
  apply (missing_description_falls_back
           unit tt Sample.predict (FaultInfoKB.get_fault_info ∅)
           Sample.find_nearest_office OfficeLocator.format_contact_info
           (Sample.visit Sample.picture "110001" "Asha" true) ∅ Sample.picture).
  - reflexivity.
  - reflexivity.
Defined.
